(** * workout_api: the Category and Training Center controllers

    A shallow embedding of [workout_api/categorias/controller.py] and
    [workout_api/centro_treinamento/controller.py].

    Every endpoint is an [async def] that receives a database session and
    talks to it sequentially: [execute(select(...))], [add], [delete],
    [commit], [refresh].  The session is modelled as an explicit state (the
    committed table, the working copy the ORM objects live in and the writes
    pending) threaded through a state-and-exception monad; an ORM object is a
    handle into the working copy, so that [setattr] on it and [refresh] of it
    read as they do in the source.  The table keeps its column [nome] unique:
    a commit that would write a name another row has raises
    [IntegrityError]. *)

From stdpp Require Import gmap strings list fin_maps.

Set Default Proof Using "Type".

(** ** Values, rows and request bodies *)

(** [uuid.UUID]: a 128-bit number. *)
Definition uuid := N.
Bind Scope N_scope with uuid.

(** Column and field values.  Python attributes are untyped; the two kinds
    the controllers handle themselves are strings ([nome]) and UUIDs ([id]). *)
Inductive value :=
  | VStr (s : string)
  | VUUID (u : uuid).

#[global] Instance value_eq_dec : EqDecision value.
Proof. solve_decision. Defined.

(** A table row (an instance of [CategoriaModel] / [CentroTreinamentoModel]),
    and also the dump of a pydantic model: attribute name to value. *)
Abbreviation row := (gmap string value).

(** An instance of the request schema ([CategoriaIn] /
    [CentroTreinamentoIn]).  The controllers read the attribute [nome] and
    otherwise only dump the instance, so the remaining fields are kept as a
    dictionary.  [model_fields_set] is pydantic's record of the fields the
    request body really carried. *)
Record SchemaIn := {
  nome : string;
  other_fields : gmap string value;
  model_fields_set : gset string;
}.

(** [m.model_dump()] *)
Definition model_dump (m : SchemaIn) : gmap string value :=
  <["nome" := VStr (nome m)]> (other_fields m).

(** [m.model_dump(exclude_unset=True)] *)
Definition model_dump_exclude_unset (m : SchemaIn) : gmap string value :=
  filter (λ kv, kv.1 ∈ model_fields_set m) (model_dump m).

(** ** Exceptions and HTTP status codes *)

Definition HTTP_404_NOT_FOUND : nat := 404.
Definition HTTP_409_CONFLICT : nat := 409.
Definition HTTP_500_INTERNAL_SERVER_ERROR : nat := 500.

(** The [detail] text of an [HTTPException] is a message for the client and
    is not modelled. *)
Inductive exception :=
  | HTTPException (status_code : nat)
  | TypeError
  | IntegrityError
  | InvalidRequestError.

#[global] Instance exception_eq_dec : EqDecision exception.
Proof. solve_decision. Defined.

(** The output schema ([CategoriaOut(id=uuid4(), **dump)]): the input fields
    plus [id].  Python refuses a keyword given twice. *)
Definition SchemaOut (id : uuid) (kwargs : gmap string value) : exception + row :=
  if decide (is_Some (kwargs !! "id")) then inl TypeError
  else inr (<["id" := VUUID id]> kwargs).

(** ** The table and its constraint *)

(** A table is the list of its rows, in the order [select] returns them. *)

(** A column of the table, top to bottom ([None] where a row lacks it). *)
Definition column (c : string) (db : list row) : list (option value) :=
  (λ r : row, r !! c) <$> db.

Arguments column : simpl never.

Definition nomes (db : list row) : list (option value) := column "nome" db.
Definition ids (db : list row) : list (option value) := column "id" db.

(** No two stored records share the same [nome]. *)
Definition unique_nome (db : list row) : Prop := NoDup (nomes db).

(** No two stored records share the same [id]. *)
Definition unique_id (db : list row) : Prop := NoDup (ids db).

#[global] Instance unique_nome_dec db : Decision (unique_nome db).
Proof. unfold unique_nome. apply _. Defined.

#[global] Instance unique_id_dec db : Decision (unique_id db).
Proof. unfold unique_id. apply _. Defined.

(** Modelled from the spec: the declaration of the tables ([models.py]) is
    not among the sources.  The spec gives each table a column [nome] that is
    unique (section 6; section 5 asks for a real uniqueness constraint on
    [nome] per table).  A write of the row [obj] with its [nome] is refused
    when another row of the table has that [nome].  Of the primary key [id]
    the controllers can only ever write a value fresh from [uuid4()], so its
    constraint is left out. *)
Definition nome_taken (table : list row) (obj : nat) : Prop :=
  match table !! obj with
  | Some r => is_Some (r !! "nome") ∧ (r !! "nome") ∈ nomes (delete obj table)
  | None => False
  end.

#[global] Instance nome_taken_dec table obj : Decision (nome_taken table obj).
Proof. unfold nome_taken. destruct (table !! obj); apply _. Defined.

(** The writes a flush would make, as pairs of a row and a column, and
    whether the table refuses one of them. *)
Definition refused (table : list row) (written : gset (nat * string)) : Prop :=
  set_Exists (λ w, w.2 = "nome" ∧ nome_taken table w.1) written.

#[global] Instance refused_dec table written : Decision (refused table written).
Proof. unfold refused. apply _. Defined.

(** ** The database session *)

(** The session as the controllers use it: the table as committed, the
    session's own view of it with the changes made through its objects, and
    the writes those changes will need.  An ORM object is a handle into the
    view. *)
Record Session := {
  committed : list row;            (* what the table holds *)
  working : list row;              (* the session's view, with its pending changes *)
  written : gset (nat * string);   (* the pending writes: object and column *)
}.

(** The session after a flush the table refused, and after one it took. *)
Definition rollback (s : Session) : Session :=
  {| committed := committed s; working := committed s; written := ∅ |}.

Definition flushed (table : list row) : Session :=
  {| committed := table; working := table; written := ∅ |}.

Definition M (A : Type) : Type := Session → (exception + A) * Session.

#[global] Instance M_ret : MRet M := λ A (a : A) s, (inr a, s).

#[global] Instance M_bind : MBind M := λ A B (f : A → M B) (m : M A) s,
  match m s with
  | (inl e, s') => (inl e, s')
  | (inr a, s') => f a s'
  end.

#[global] Instance M_fmap : FMap M := λ A B (f : A → B) (m : M A) s,
  match m s with
  | (inl e, s') => (inl e, s')
  | (inr a, s') => (inr (f a), s')
  end.

Definition raise {A} (e : exception) : M A := λ s, (inl e, s).

(** [try: body  except Exception: handler] *)
Definition try_except {A} (body handler : M A) : M A := λ s,
  match body s with
  | (inl _, s') => handler s'
  | (inr a, s') => (inr a, s')
  end.

(** A value computed without the session, or the exception it raised. *)
Definition lift {A} (r : exception + A) : M A := λ s, (r, s).

(** [for x in l: body(x)] *)
Fixpoint for_in {A} (l : list A) (body : A → M unit) : M unit :=
  match l with
  | [] => mret tt
  | x :: l' => body x ;; for_in l' body
  end.

(** What [await db_session.execute(query)] returns: a cursor over the rows
    selected, not yet a list of them. *)
Inductive Result := ResultOf (rows : list row).

(** [await db_session.execute(select(Model))] *)
Definition execute_select : M Result := λ s, (inr (ResultOf (working s)), s).

(** [(await db_session.execute(select(Model))).scalars().all()] *)
Definition scalars_all : M (list row) := λ s, (inr (working s), s).

(** [(await db_session.execute(select(Model).filter_by(k=v))).scalars().first()]:
    the first matching row, as an ORM object (its handle and its attributes),
    or [None]. *)
Definition scalars_first (k : string) (v : value) : M (option (nat * row)) := λ s,
  (inr (list_find (λ r : row, r !! k = Some v) (working s)), s).

(** [db_session.add(obj)] *)
Definition add (r : row) : M unit := λ s,
  (inr tt, {| committed := committed s;
              working := working s ++ [r];
              written := set_map (pair (length (working s))) (dom r) ∪ written s |}).

(** [setattr(obj, key, value)] on an ORM object of the session *)
Definition setattr (obj : nat) (key : string) (v : value) : M unit := λ s,
  (inr tt, {| committed := committed s;
              working := alter (λ r : row, <[key := v]> r) obj (working s);
              written := {[(obj, key)]} ∪ written s |}).

(** The pending writes once the object [obj] is gone from the view: those
    of [obj] are dropped, and the handles below it move up with their rows. *)
Definition forget (obj : nat) (written : gset (nat * string)) : gset (nat * string) :=
  set_map (λ w : nat * string, (if decide (w.1 < obj) then w.1 else pred w.1, w.2))
    (filter (λ w : nat * string, w.1 ≠ obj) written).

(** [await db_session.delete(obj)] *)
Definition session_delete (obj : nat) : M unit := λ s,
  (inr tt, {| committed := committed s;
              working := delete obj (working s);
              written := forget obj (written s) |}).

(** [await db_session.commit()]: the pending writes are flushed and the view
    becomes the table, unless the table refuses one of the writes; then
    [IntegrityError] is raised and nothing of the session is kept. *)
Definition commit : M unit := λ s,
  if decide (refused (working s) (written s)) then (inl IntegrityError, rollback s)
  else (inr tt, flushed (working s)).

(** [await db_session.refresh(obj)]: reload the object from the table. *)
Definition refresh (obj : nat) : M row := λ s,
  match committed s !! obj with
  | Some r => (inr r, s)
  | None => (inl InvalidRequestError, s)
  end.

(** One request: a fresh session on the table, the endpoint, and the table
    the request leaves behind (what was not committed is dropped with the
    session). *)
Definition begin (db : list row) : Session := flushed db.

Definition request {A} (endpoint : M A) (db : list row) : (exception + A) * list row :=
  let '(r, s) := endpoint (begin db) in (r, committed s).

(** ** fastapi_pagination *)

Module fastapi_pagination.

Record Page := {
  items : list row;
  total : nat;
  page : nat;
  size : nat;
  pages : nat;
}.

(** What [paginate] is handed: Python does not say.  A list of rows is a
    sequence; the [Result] of [execute] is not. *)
Inductive object :=
  | Sequence (rows : list row)
  | Cursor (result : Result).

(** What the endpoints import as [paginate]: a routine of the library, from
    the object handed to it to a page or an exception.  However it finds its
    own parameters, the endpoint gives it nothing but that object. *)
Definition paginator : Type := object → exception + Page.

(** The library's in-memory [paginate(sequence)] at the parameters [page]
    and [size], which it resolves itself from the request's query string
    ([page] defaults to 1 and [size] to 50).  It takes the length of its
    argument and slices it, which a [Result] does not support. *)
Definition paginate (page size : nat) : paginator := λ sequence,
  match sequence with
  | Sequence rows =>
      inr {| items := take size (drop ((page - 1) * size) rows);
             total := length rows;
             page := page;
             size := size;
             pages := (length rows + size - 1) / size |}
  | Cursor _ => inl TypeError
  end.

End fastapi_pagination.

(** ** categorias/controller.py *)

Module categorias.

(** The argument [uuid4] of [post] is what the call [uuid4()] in its body
    returns. *)
Definition post (uuid4 : uuid) (categoria_in : SchemaIn) : M row :=
  categoria_existente ← scalars_first "nome" (VStr (nome categoria_in));
  if categoria_existente is Some _ then
    raise (HTTPException HTTP_409_CONFLICT)
  else
    try_except
      (categoria_out ← lift (SchemaOut uuid4 (model_dump categoria_in));
       let categoria_model := categoria_out in
       add categoria_model;;
       commit;;
       mret categoria_out)
      (raise (HTTPException HTTP_500_INTERNAL_SERVER_ERROR)).

Definition query : M (list row) :=
  categorias ← scalars_all;
  if categorias is [] then raise (HTTPException HTTP_404_NOT_FOUND)
  else mret categorias.

Definition get (id : uuid) : M row :=
  categoria ← scalars_first "id" (VUUID id);
  match categoria with
  | None => raise (HTTPException HTTP_404_NOT_FOUND)
  | Some (_, categoria) => mret categoria
  end.

Definition get_by_nome (nome : string) : M row :=
  categoria ← scalars_first "nome" (VStr nome);
  match categoria with
  | None => raise (HTTPException HTTP_404_NOT_FOUND)
  | Some (_, categoria) => mret categoria
  end.

(** The second [query] of the module (route [/categorias/]).  [limit] and
    [offset] are parameters of the endpoint; its body does not read them.
    What it hands to [paginate] is the result of [execute] as it is. *)
Definition query_page (paginate : fastapi_pagination.paginator)
    (limit offset : Z) : M fastapi_pagination.Page :=
  categorias ← execute_select;
  lift (paginate (fastapi_pagination.Cursor categorias)).

Definition patch (id : uuid) (categoria_up : SchemaIn) : M row :=
  categoria ← scalars_first "id" (VUUID id);
  match categoria with
  | None => raise (HTTPException HTTP_404_NOT_FOUND)
  | Some (categoria, _) =>
      let categoria_update := model_dump_exclude_unset categoria_up in
      for_in (map_to_list categoria_update)
        (λ '(key, value), setattr categoria key value);;
      commit;;
      refresh categoria
  end.

Definition patch_by_nome (nome : string) (categoria_up : SchemaIn) : M row :=
  categoria ← scalars_first "nome" (VStr nome);
  match categoria with
  | None => raise (HTTPException HTTP_404_NOT_FOUND)
  | Some (categoria, _) =>
      let categoria_update := model_dump_exclude_unset categoria_up in
      for_in (map_to_list categoria_update)
        (λ '(key, value), setattr categoria key value);;
      commit;;
      refresh categoria
  end.

Definition delete (id : uuid) : M unit :=
  categoria ← scalars_first "id" (VUUID id);
  match categoria with
  | None => raise (HTTPException HTTP_404_NOT_FOUND)
  | Some (categoria, _) => session_delete categoria;; commit
  end.

Definition delete_by_nome (nome : string) : M unit :=
  categoria ← scalars_first "nome" (VStr nome);
  match categoria with
  | None => raise (HTTPException HTTP_404_NOT_FOUND)
  | Some (categoria, _) => session_delete categoria;; commit
  end.

End categorias.

(** ** centro_treinamento/controller.py *)

Module centro_treinamento.

Definition post (uuid4 : uuid) (centro_treinamento_in : SchemaIn) : M row :=
  centro_treinamento_existente ←
    scalars_first "nome" (VStr (nome centro_treinamento_in));
  if centro_treinamento_existente is Some _ then
    raise (HTTPException HTTP_409_CONFLICT)
  else
    try_except
      (centro_treinamento_out ←
         lift (SchemaOut uuid4 (model_dump centro_treinamento_in));
       let centro_treinamento_model := centro_treinamento_out in
       add centro_treinamento_model;;
       commit;;
       mret centro_treinamento_out)
      (raise (HTTPException HTTP_500_INTERNAL_SERVER_ERROR)).

Definition query : M (list row) :=
  centros_treinamento_out ← scalars_all;
  if centros_treinamento_out is [] then raise (HTTPException HTTP_404_NOT_FOUND)
  else mret centros_treinamento_out.

Definition get (id : uuid) : M row :=
  centro_treinamento_out ← scalars_first "id" (VUUID id);
  match centro_treinamento_out with
  | None => raise (HTTPException HTTP_404_NOT_FOUND)
  | Some (_, centro_treinamento_out) => mret centro_treinamento_out
  end.

Definition get_by_name (nome : string) : M row :=
  centro_treinamento_out ← scalars_first "nome" (VStr nome);
  match centro_treinamento_out with
  | None => raise (HTTPException HTTP_404_NOT_FOUND)
  | Some (_, centro_treinamento_out) => mret centro_treinamento_out
  end.

(** The second [query] of the module (route [/centros_treinamento/]). *)
Definition query_page (paginate : fastapi_pagination.paginator)
    (limit offset : Z) : M fastapi_pagination.Page :=
  centros_treinamento ← execute_select;
  lift (paginate (fastapi_pagination.Cursor centros_treinamento)).

Definition patch_by_name (nome : string) (centro_treinamento_up : SchemaIn) : M row :=
  centro_treinamento_out ← scalars_first "nome" (VStr nome);
  match centro_treinamento_out with
  | None => raise (HTTPException HTTP_404_NOT_FOUND)
  | Some (centro_treinamento_out, _) =>
      let centro_treinamento_update :=
        model_dump_exclude_unset centro_treinamento_up in
      for_in (map_to_list centro_treinamento_update)
        (λ '(key, value), setattr centro_treinamento_out key value);;
      commit;;
      refresh centro_treinamento_out
  end.

Definition patch (id : uuid) (centro_treinamento_up : SchemaIn) : M row :=
  centro_treinamento_out ← scalars_first "id" (VUUID id);
  match centro_treinamento_out with
  | None => raise (HTTPException HTTP_404_NOT_FOUND)
  | Some (centro_treinamento_out, _) =>
      let centro_treinamento_update :=
        model_dump_exclude_unset centro_treinamento_up in
      for_in (map_to_list centro_treinamento_update)
        (λ '(key, value), setattr centro_treinamento_out key value);;
      commit;;
      refresh centro_treinamento_out
  end.

Definition delete_by_name (nome : string) : M unit :=
  centro_treinamento_out ← scalars_first "nome" (VStr nome);
  match centro_treinamento_out with
  | None => raise (HTTPException HTTP_404_NOT_FOUND)
  | Some (centro_treinamento_out, _) =>
      session_delete centro_treinamento_out;; commit
  end.

Definition delete (id : uuid) : M unit :=
  centro_treinamento_out ← scalars_first "id" (VUUID id);
  match centro_treinamento_out with
  | None => raise (HTTPException HTTP_404_NOT_FOUND)
  | Some (centro_treinamento_out, _) =>
      session_delete centro_treinamento_out;; commit
  end.

End centro_treinamento.

(** ** The service, per entity *)

Inductive entity := Categoria | CentroTreinamento.

Definition Create (e : entity) : uuid → SchemaIn → M row :=
  match e with
  | Categoria => categorias.post
  | CentroTreinamento => centro_treinamento.post
  end.

Definition ListAll (e : entity) : M (list row) :=
  match e with
  | Categoria => categorias.query
  | CentroTreinamento => centro_treinamento.query
  end.

Definition ListPage (e : entity) :
    fastapi_pagination.paginator → Z → Z → M fastapi_pagination.Page :=
  match e with
  | Categoria => categorias.query_page
  | CentroTreinamento => centro_treinamento.query_page
  end.

Definition GetById (e : entity) : uuid → M row :=
  match e with
  | Categoria => categorias.get
  | CentroTreinamento => centro_treinamento.get
  end.

Definition GetByName (e : entity) : string → M row :=
  match e with
  | Categoria => categorias.get_by_nome
  | CentroTreinamento => centro_treinamento.get_by_name
  end.

Definition UpdateById (e : entity) : uuid → SchemaIn → M row :=
  match e with
  | Categoria => categorias.patch
  | CentroTreinamento => centro_treinamento.patch
  end.

Definition UpdateByName (e : entity) : string → SchemaIn → M row :=
  match e with
  | Categoria => categorias.patch_by_nome
  | CentroTreinamento => centro_treinamento.patch_by_name
  end.

Definition DeleteById (e : entity) : uuid → M unit :=
  match e with
  | Categoria => categorias.delete
  | CentroTreinamento => centro_treinamento.delete
  end.

Definition DeleteByName (e : entity) : string → M unit :=
  match e with
  | Categoria => categorias.delete_by_nome
  | CentroTreinamento => centro_treinamento.delete_by_name
  end.

(** A call of the service, and what it answers. *)
Inductive operation :=
  | OpCreate (uuid4 : uuid) (input : SchemaIn)
  | OpListAll
  | OpListPage (limit offset : Z)
  | OpGetById (id : uuid)
  | OpGetByName (nome : string)
  | OpUpdateById (id : uuid) (patch : SchemaIn)
  | OpUpdateByName (nome : string) (patch : SchemaIn)
  | OpDeleteById (id : uuid)
  | OpDeleteByName (nome : string).

Inductive reply :=
  | Record_ (r : row)
  | Records (l : list row)
  | PageOf (p : fastapi_pagination.Page)
  | NoContent.

Definition perform (paginate : fastapi_pagination.paginator) (e : entity)
    (op : operation) : M reply :=
  match op with
  | OpCreate uuid4 input => Record_ <$> Create e uuid4 input
  | OpListAll => Records <$> ListAll e
  | OpListPage limit offset => PageOf <$> ListPage e paginate limit offset
  | OpGetById id => Record_ <$> GetById e id
  | OpGetByName nome => Record_ <$> GetByName e nome
  | OpUpdateById id patch => Record_ <$> UpdateById e id patch
  | OpUpdateByName nome patch => Record_ <$> UpdateByName e nome patch
  | OpDeleteById id => (λ _, NoContent) <$> DeleteById e id
  | OpDeleteByName nome => (λ _, NoContent) <$> DeleteByName e nome
  end.

(** * Vocabulary of the properties *)

(** ** Selections, columns and invariants *)

(** The row selected by [filter_by(k=v)]. *)
Abbreviation has k v := (λ r : row, r !! k = Some v).

(** What the loop of [patch] makes of one row: the items of the dictionary
    assigned in turn. *)
Definition assign_all (l : list (string * value)) (r : row) : row :=
  foldl (λ acc kv, <[kv.1 := kv.2]> acc) r l.

(** The writes the loop leaves pending: one per item, on the object. *)
Abbreviation writes_of obj l :=
  (list_to_set ((λ kv : string * value, (obj, kv.1)) <$> l) : gset (nat * string)).

(** A stored record other than the one at [obj] has the [nome] [v]. *)
Definition taken_by_other (db : list row) (obj : nat) (v : value) : Prop :=
  Some v ∈ nomes (delete obj db).

#[global] Instance taken_by_other_dec db obj v : Decision (taken_by_other db obj v).
Proof. unfold taken_by_other. apply _. Defined.

(** The fields [given] carry a [nome] that a stored record other than the
    one at [obj] has. *)
Definition sets_taken_nome (db : list row) (obj : nat) (given : row) : Prop :=
  match given !! "nome" with
  | Some n => taken_by_other db obj n
  | None => False
  end.

#[global] Instance sets_taken_nome_dec db obj given :
  Decision (sets_taken_nome db obj given).
Proof. unfold sets_taken_nome. destruct (given !! "nome"); apply _. Defined.

(** No stored record has the value [v] in the column [k]. *)
Definition no_match (k : string) (v : value) (db : list row) : Prop :=
  ∀ r : row, r ∈ db → r !! k ≠ Some v.

(** ** Calls *)

(** The exceptions an endpoint lets out, called on a fresh session.  Create
    turns whatever its write raises into InternalError (500); the updates
    have no handler around their commit; the paginated query raises nothing
    of its own, what it lets out comes from [paginate]. *)
Definition raised_by (op : operation) : list exception :=
  match op with
  | OpCreate _ _ =>
      [HTTPException HTTP_409_CONFLICT; HTTPException HTTP_500_INTERNAL_SERVER_ERROR]
  | OpListPage _ _ => []
  | OpUpdateById _ _ | OpUpdateByName _ _ =>
      [HTTPException HTTP_404_NOT_FOUND; IntegrityError]
  | _ => [HTTPException HTTP_404_NOT_FOUND]
  end.

(** The operations that cannot give a record a new [nome]: all but the
    updates whose patch sets [nome]. *)
Definition keeps_nome (op : operation) : Prop :=
  match op with
  | OpUpdateById _ patch | OpUpdateByName _ patch => "nome" ∉ model_fields_set patch
  | _ => True
  end.

(** The calls the service really receives: the request schema has no [id]
    field, and [uuid4()] returns an identifier that is not in use. *)
Definition well_formed_call (db : list row) (op : operation) : Prop :=
  match op with
  | OpCreate uuid4 input =>
      other_fields input !! "id" = None ∧
      ∀ r : row, r ∈ db → r !! "id" ≠ Some (VUUID uuid4)
  | OpUpdateById _ patch | OpUpdateByName _ patch => other_fields patch !! "id" = None
  | _ => True
  end.

(** The tables the service can build from an empty one. *)
Inductive reachable (paginate : fastapi_pagination.paginator) (e : entity) :
    list row → Prop :=
  | reachable_empty : reachable paginate e []
  | reachable_step db op :
      reachable paginate e db → well_formed_call db op →
      reachable paginate e (request (perform paginate e op) db).2.

(** ** uuid4 *)




(** ** ListPage as the spec words it *)

(** The page the spec describes for [limit] and [offset]: skip [offset]
    records, keep at most [limit]. *)
Definition page_of_spec (limit offset : nat) (db : list row) : list row :=
  take limit (drop offset db).

(** ** Sample data *)

Definition record (id : uuid) (nome : string) : row :=
  <["id" := VUUID id]> (<["nome" := VStr nome]> ∅).

Definition body (nome : string) : SchemaIn :=
  {| nome := nome; other_fields := ∅; model_fields_set := {["nome"]} |}.

Definition cardio_forca : list row := [record 1 "Cardio"; record 2 "Forca"].

Definition twelve : list row :=
  imap (λ i n, record (N.of_nat (S i)) n)
    ["a"; "b"; "c"; "d"; "e"; "f"; "g"; "h"; "i"; "j"; "k"; "l"].

(** * Properties *)

(** ** The monad, step by step *)

Ltac unfold_M :=
  unfold mbind, M_bind, mret, M_ret, fmap, M_fmap, raise, try_except, lift,
    execute_select, scalars_all, scalars_first, add, session_delete, commit,
    refresh; simpl.

(** The two controllers are the same program up to the names of their
    variables. *)
Lemma Create_categorias e : Create e = categorias.post.
Proof. by destruct e. Qed.

Lemma ListAll_categorias e : ListAll e = categorias.query.
Proof. by destruct e. Qed.

Lemma ListPage_categorias e : ListPage e = categorias.query_page.
Proof. by destruct e. Qed.

Lemma GetById_categorias e : GetById e = categorias.get.
Proof. by destruct e. Qed.

Lemma GetByName_categorias e : GetByName e = categorias.get_by_nome.
Proof. by destruct e. Qed.

Lemma UpdateById_categorias e : UpdateById e = categorias.patch.
Proof. by destruct e. Qed.

Lemma UpdateByName_categorias e : UpdateByName e = categorias.patch_by_nome.
Proof. by destruct e. Qed.

Lemma DeleteById_categorias e : DeleteById e = categorias.delete.
Proof. by destruct e. Qed.

Lemma DeleteByName_categorias e : DeleteByName e = categorias.delete_by_nome.
Proof. by destruct e. Qed.

Ltac to_categorias :=
  rewrite ?Create_categorias, ?ListAll_categorias, ?ListPage_categorias,
    ?GetById_categorias, ?GetByName_categorias, ?UpdateById_categorias,
    ?UpdateByName_categorias, ?DeleteById_categorias, ?DeleteByName_categorias.

(** ** The [setattr] loop *)

Lemma for_in_setattr obj (l : list (string * value)) s :
  for_in l (λ '(key, value), setattr obj key value) s =
  (inr tt, {| committed := committed s;
              working := alter (assign_all l) obj (working s);
              written := writes_of obj l ∪ written s |}).
Proof.
  revert s. induction l as [|[k v] l IH]; intros s.
  - simpl. unfold mret, M_ret. f_equal. destruct s as [c w wr]; simpl. f_equal.
    + symmetry. apply list_alter_id. done.
    + by rewrite (left_id_L ∅ (∪)).
  - simpl. unfold mbind, M_bind, setattr at 1. rewrite IH. simpl.
    f_equal. f_equal; [by rewrite list_alter_alter_eq|].
    by rewrite (assoc_L (∪)), (comm_L (∪) (list_to_set _)).
Qed.

Lemma assign_all_union (l : list (string * value)) (r : row) :
  NoDup l.*1 → assign_all l r = list_to_map l ∪ r.
Proof.
  revert r. induction l as [|[k v] l IH]; intros r Hnd.
  - simpl. by rewrite (left_id_L ∅ (∪)).
  - rewrite fmap_cons in Hnd. apply NoDup_cons in Hnd as [Hk Hnd].
    unfold assign_all in *. cbn [foldl list_to_map foldr fst snd uncurry].
    rewrite IH by done. rewrite <- insert_union_l.
    symmetry. apply insert_union_r. by apply not_elem_of_list_to_map_1.
Qed.

(** A dictionary has each key once, so the order of its items does not
    matter: the loop overwrites the row with the dictionary. *)
Lemma assign_all_items (d r : row) : assign_all (map_to_list d) r = d ∪ r.
Proof.
  rewrite assign_all_union by apply NoDup_fst_map_to_list.
  by rewrite list_to_map_to_list.
Qed.

Lemma alter_assign_all_items (d : row) obj (w : list row) :
  alter (assign_all (map_to_list d)) obj w = alter (λ r : row, d ∪ r) obj w.
Proof. apply list_alter_ext; [|done]. intros; apply assign_all_items. Qed.

Lemma elem_of_writes_of obj (d : row) obj' c :
  (obj', c) ∈ writes_of obj (map_to_list d) ↔ obj' = obj ∧ is_Some (d !! c).
Proof.
  rewrite elem_of_list_to_set, list_elem_of_fmap. split.
  - intros ([k v] & [= -> ->] & Hkv). split; [done|].
    apply elem_of_map_to_list in Hkv. by eexists.
  - intros [-> [v Hv]]. exists (c, v). split; [done|].
    by apply elem_of_map_to_list.
Qed.

(** ** What each endpoint computes *)

Lemma model_dump_id inp : model_dump inp !! "id" = other_fields inp !! "id".
Proof. unfold model_dump. by rewrite lookup_insert_ne. Qed.

Lemma model_dump_nome inp : model_dump inp !! "nome" = Some (VStr (nome inp)).
Proof. unfold model_dump. by rewrite lookup_insert_eq. Qed.

Lemma post_eq u inp s :
  categorias.post u inp s =
  match list_find (has "nome" (VStr (nome inp))) (working s) with
  | Some _ => (inl (HTTPException HTTP_409_CONFLICT), s)
  | None =>
      match SchemaOut u (model_dump inp) with
      | inl _ => (inl (HTTPException HTTP_500_INTERNAL_SERVER_ERROR), s)
      | inr out =>
          if decide (refused (working s ++ [out])
                       (set_map (pair (length (working s))) (dom out) ∪ written s))
          then (inl (HTTPException HTTP_500_INTERNAL_SERVER_ERROR), rollback s)
          else (inr out, flushed (working s ++ [out]))
      end
  end.
Proof.
  unfold categorias.post. unfold_M.
  destruct (list_find _ _) as [[]|]; [done|].
  destruct (SchemaOut _ _); [done|]. simpl. by case_decide.
Qed.

Lemma query_eq s :
  categorias.query s =
  match working s with
  | [] => (inl (HTTPException HTTP_404_NOT_FOUND), s)
  | _ :: _ => (inr (working s), s)
  end.
Proof. unfold categorias.query. unfold_M. by destruct (working s). Qed.

Lemma query_page_eq paginate limit offset s :
  categorias.query_page paginate limit offset s =
  (paginate (fastapi_pagination.Cursor (ResultOf (working s))), s).
Proof. by unfold categorias.query_page. Qed.

(** [get] and [get_by_nome] share their body, and so do the two updates and
    the two deletions: the column they select on is the only difference. *)
Lemma get_body k v s :
  (found ← scalars_first k v;
   match found with
   | None => raise (HTTPException HTTP_404_NOT_FOUND)
   | Some (_, r) => mret r
   end) s =
  match list_find (has k v) (working s) with
  | None => (inl (HTTPException HTTP_404_NOT_FOUND), s)
  | Some (_, r) => (inr r, s)
  end.
Proof. unfold_M. by destruct (list_find _ _) as [[]|]. Qed.

Lemma patch_body k v up s :
  (found ← scalars_first k v;
   match found with
   | None => raise (HTTPException HTTP_404_NOT_FOUND)
   | Some (obj, _) =>
       for_in (map_to_list (model_dump_exclude_unset up))
         (λ '(key, value), setattr obj key value);;
       commit;;
       refresh obj
   end) s =
  match list_find (has k v) (working s) with
  | None => (inl (HTTPException HTTP_404_NOT_FOUND), s)
  | Some (obj, r) =>
      let given := model_dump_exclude_unset up in
      let w := alter (λ r : row, given ∪ r) obj (working s) in
      if decide (refused w (writes_of obj (map_to_list given) ∪ written s))
      then (inl IntegrityError, rollback s)
      else (inr (given ∪ r), flushed w)
  end.
Proof.
  unfold mbind at 1, M_bind at 1, scalars_first. simpl.
  destruct (list_find _ _) as [[obj r]|] eqn:Hfind; [|done].
  apply list_find_Some in Hfind as (Hobj & _ & _).
  unfold mbind, M_bind. rewrite for_in_setattr. unfold commit, refresh. simpl.
  rewrite alter_assign_all_items. case_decide; [done|]. simpl.
  by rewrite list_lookup_alter_eq, Hobj.
Qed.

Lemma delete_body k v s :
  (found ← scalars_first k v;
   match found with
   | None => raise (HTTPException HTTP_404_NOT_FOUND)
   | Some (obj, _) => session_delete obj;; commit
   end) s =
  match list_find (has k v) (working s) with
  | None => (inl (HTTPException HTTP_404_NOT_FOUND), s)
  | Some (obj, _) =>
      if decide (refused (delete obj (working s)) (forget obj (written s)))
      then (inl IntegrityError, rollback s)
      else (inr tt, flushed (delete obj (working s)))
  end.
Proof.
  unfold_M. destruct (list_find _ _) as [[]|]; [|done]. simpl. by case_decide.
Qed.

Lemma get_eq id s :
  categorias.get id s =
  match list_find (has "id" (VUUID id)) (working s) with
  | None => (inl (HTTPException HTTP_404_NOT_FOUND), s)
  | Some (_, r) => (inr r, s)
  end.
Proof. apply get_body. Qed.

Lemma get_by_nome_eq n s :
  categorias.get_by_nome n s =
  match list_find (has "nome" (VStr n)) (working s) with
  | None => (inl (HTTPException HTTP_404_NOT_FOUND), s)
  | Some (_, r) => (inr r, s)
  end.
Proof. apply get_body. Qed.

Lemma patch_eq id up s :
  categorias.patch id up s =
  match list_find (has "id" (VUUID id)) (working s) with
  | None => (inl (HTTPException HTTP_404_NOT_FOUND), s)
  | Some (obj, r) =>
      let given := model_dump_exclude_unset up in
      let w := alter (λ r : row, given ∪ r) obj (working s) in
      if decide (refused w (writes_of obj (map_to_list given) ∪ written s))
      then (inl IntegrityError, rollback s)
      else (inr (given ∪ r), flushed w)
  end.
Proof. apply patch_body. Qed.

Lemma patch_by_nome_eq n up s :
  categorias.patch_by_nome n up s =
  match list_find (has "nome" (VStr n)) (working s) with
  | None => (inl (HTTPException HTTP_404_NOT_FOUND), s)
  | Some (obj, r) =>
      let given := model_dump_exclude_unset up in
      let w := alter (λ r : row, given ∪ r) obj (working s) in
      if decide (refused w (writes_of obj (map_to_list given) ∪ written s))
      then (inl IntegrityError, rollback s)
      else (inr (given ∪ r), flushed w)
  end.
Proof. apply patch_body. Qed.

Lemma delete_eq id s :
  categorias.delete id s =
  match list_find (has "id" (VUUID id)) (working s) with
  | None => (inl (HTTPException HTTP_404_NOT_FOUND), s)
  | Some (obj, _) =>
      if decide (refused (delete obj (working s)) (forget obj (written s)))
      then (inl IntegrityError, rollback s)
      else (inr tt, flushed (delete obj (working s)))
  end.
Proof. apply delete_body. Qed.

Lemma delete_by_nome_eq n s :
  categorias.delete_by_nome n s =
  match list_find (has "nome" (VStr n)) (working s) with
  | None => (inl (HTTPException HTTP_404_NOT_FOUND), s)
  | Some (obj, _) =>
      if decide (refused (delete obj (working s)) (forget obj (written s)))
      then (inl IntegrityError, rollback s)
      else (inr tt, flushed (delete obj (working s)))
  end.
Proof. apply delete_body. Qed.

(** ** One request on a table *)

Lemma refused_empty (table : list row) : ¬ refused table ∅.
Proof. intros (w & Hw & _). by apply not_elem_of_empty in Hw. Qed.

Lemma forget_empty obj : forget obj ∅ = ∅.
Proof.
  unfold forget. apply set_eq. intros w. rewrite elem_of_map. split.
  - intros (x & _ & Hx). apply elem_of_filter in Hx as [_ Hx].
    by apply not_elem_of_empty in Hx.
  - by intros ?%not_elem_of_empty.
Qed.

Lemma delete_alter {A} (f : A → A) obj (l : list A) :
  delete obj (alter f obj l) = delete obj l.
Proof. revert obj. induction l; intros [|obj]; simpl; [done..|]. by f_equal. Qed.

Lemma find_none_iff k v (db : list row) :
  list_find (has k v) db = None ↔ no_match k v db.
Proof. unfold no_match. by rewrite list_find_None, Forall_forall. Qed.

Lemma find_some_member k v (db : list row) obj (r : row) :
  list_find (has k v) db = Some (obj, r) →
  db !! obj = Some r ∧ r ∈ db ∧ r !! k = Some v.
Proof.
  intros (Hobj & Hr & _)%list_find_Some. split_and!; [done| |done].
  by eapply list_elem_of_lookup_2.
Qed.

Lemma find_absent k v (db : list row) :
  (∀ r : row, r ∈ db → r !! k ≠ Some v) → list_find (has k v) db = None.
Proof. apply find_none_iff. Qed.

Lemma find_appended k v (db : list row) (out : row) :
  (∀ r : row, r ∈ db → r !! k ≠ Some v) → out !! k = Some v →
  list_find (has k v) (db ++ [out]) = Some (length db, out).
Proof.
  intros Hall Hout. apply list_find_Some. split_and!.
  - by rewrite lookup_app_r, Nat.sub_diag.
  - done.
  - intros j y Hj Hlt. rewrite lookup_app_l in Hj by done.
    apply Hall. by eapply list_elem_of_lookup_2.
Qed.

(** Another record has the name: said with the places of the table. *)
Lemma taken_by_other_iff (db : list row) obj v :
  taken_by_other db obj v ↔
  ∃ j (r2 : row), db !! j = Some r2 ∧ j ≠ obj ∧ r2 !! "nome" = Some v.
Proof.
  unfold taken_by_other, nomes, column. rewrite list_elem_of_fmap. split.
  - intros (r2 & Hv & [j Hj]%list_elem_of_lookup_1).
    rewrite list_lookup_delete in Hj.
    exists (if decide (j < obj) then j else S j), r2.
    split_and!; [done| |done]. case_decide; lia.
  - intros (j & r2 & Hj & Hne & Hv). exists r2. split; [done|].
    destruct (decide (j < obj)).
    + apply (list_elem_of_lookup_2 _ j). by rewrite list_lookup_delete_lt.
    + apply (list_elem_of_lookup_2 _ (j - 1)).
      rewrite list_lookup_delete_ge by lia.
      by replace (S (j - 1)) with j by lia.
Qed.

Lemma SchemaOut_inr u kwargs (out : row) :
  SchemaOut u kwargs = inr out →
  kwargs !! "id" = None ∧ out = <["id" := VUUID u]> kwargs.
Proof.
  unfold SchemaOut. case_decide as Hid; [done|]. intros [= <-].
  split; [|done]. by apply eq_None_not_Some.
Qed.

Lemma SchemaOut_no_id u input :
  other_fields input !! "id" = None →
  SchemaOut u (model_dump input) = inr (<["id" := VUUID u]> (model_dump input)).
Proof.
  intros Hid. unfold SchemaOut. rewrite model_dump_id, Hid.
  case_decide as H; [by destruct H|done].
Qed.

(** The insert of a record whose name no stored record has is not
    refused. *)
Lemma insert_not_refused (db : list row) (out : row) n :
  out !! "nome" = Some n → no_match "nome" n db →
  ¬ refused (db ++ [out]) (set_map (pair (length db)) (dom out) ∪ ∅).
Proof.
  intros Hn Hfree ([obj c] & Hw & _ & Htaken). simpl in *.
  rewrite (right_id_L ∅ (∪)) in Hw.
  apply elem_of_map in Hw as (c' & [= -> ->] & _).
  unfold nome_taken in Htaken.
  rewrite lookup_app_r, Nat.sub_diag in Htaken by done. simpl in Htaken.
  destruct Htaken as [_ Hin]. rewrite delete_middle, app_nil_r, Hn in Hin.
  unfold nomes, column in Hin.
  apply list_elem_of_fmap in Hin as (r & Heq & Hr). by apply (Hfree r).
Qed.

(** The update of a record is refused exactly when its patch carries a name
    that another stored record has. *)
Lemma update_refused_iff (db : list row) obj (r given : row) :
  db !! obj = Some r →
  refused (alter (λ r : row, given ∪ r) obj db)
    (writes_of obj (map_to_list given) ∪ ∅) ↔
  sets_taken_nome db obj given.
Proof.
  intros Hobj. rewrite (right_id_L ∅ (∪)).
  transitivity (∃ n, given !! "nome" = Some n ∧ taken_by_other db obj n).
  2:{ unfold sets_taken_nome. destruct (given !! "nome") as [n|].
      - split; [by intros (n' & [= <-] & ?)|by exists n].
      - split; [by intros (? & ? & ?)|done]. }
  unfold refused, set_Exists. split.
  - intros ([obj' c] & Hw & Hc & Htaken). simpl in *. subst c.
    apply elem_of_writes_of in Hw as [-> [n Hn]]. exists n. split; [done|].
    unfold nome_taken in Htaken.
    rewrite list_lookup_alter_eq, Hobj in Htaken. simpl in Htaken.
    destruct Htaken as [_ Hin].
    by rewrite delete_alter, (lookup_union_Some_l _ _ _ _ Hn) in Hin.
  - intros (n & Hn & Htaken). exists (obj, "nome"). split_and!; [|done|].
    + apply elem_of_writes_of. by split; [|eexists].
    + unfold nome_taken. simpl. rewrite list_lookup_alter_eq, Hobj. simpl.
      rewrite delete_alter, (lookup_union_Some_l _ _ _ _ Hn). by split; [eexists|].
Qed.

Lemma request_post u inp (db : list row) :
  request (categorias.post u inp) db =
  match list_find (has "nome" (VStr (nome inp))) db with
  | Some _ => (inl (HTTPException HTTP_409_CONFLICT), db)
  | None =>
      match SchemaOut u (model_dump inp) with
      | inl _ => (inl (HTTPException HTTP_500_INTERNAL_SERVER_ERROR), db)
      | inr out => (inr out, db ++ [out])
      end
  end.
Proof.
  unfold request. rewrite post_eq. simpl.
  destruct (list_find _ _) as [[]|] eqn:Hfind; [done|].
  destruct (SchemaOut _ _) as [|out] eqn:Hout; [done|].
  case_decide as Href; [|done]. exfalso.
  apply SchemaOut_inr in Hout as [_ ->].
  apply (insert_not_refused _ _ (VStr (nome inp))) in Href; [done| |].
  - rewrite lookup_insert_ne by done. apply model_dump_nome.
  - by apply find_none_iff.
Qed.

Lemma request_query (db : list row) :
  request categorias.query db =
  match db with
  | [] => (inl (HTTPException HTTP_404_NOT_FOUND), db)
  | _ :: _ => (inr db, db)
  end.
Proof. unfold request. rewrite query_eq. by destruct db. Qed.

Lemma request_get_body k v (db : list row) :
  request (found ← scalars_first k v;
           match found with
           | None => raise (HTTPException HTTP_404_NOT_FOUND)
           | Some (_, r) => mret r
           end) db =
  match list_find (has k v) db with
  | None => (inl (HTTPException HTTP_404_NOT_FOUND), db)
  | Some (_, r) => (inr r, db)
  end.
Proof.
  unfold request. rewrite get_body. simpl. by destruct (list_find _ _) as [[]|].
Qed.

Lemma request_patch_body k v up (db : list row) :
  request (found ← scalars_first k v;
           match found with
           | None => raise (HTTPException HTTP_404_NOT_FOUND)
           | Some (obj, _) =>
               for_in (map_to_list (model_dump_exclude_unset up))
                 (λ '(key, value), setattr obj key value);;
               commit;;
               refresh obj
           end) db =
  match list_find (has k v) db with
  | None => (inl (HTTPException HTTP_404_NOT_FOUND), db)
  | Some (obj, r) =>
      let given := model_dump_exclude_unset up in
      if decide (sets_taken_nome db obj given)
      then (inl IntegrityError, db)
      else (inr (given ∪ r), alter (λ r : row, given ∪ r) obj db)
  end.
Proof.
  unfold request. rewrite patch_body. simpl.
  destruct (list_find _ _) as [[obj r]|] eqn:Hfind; [|done].
  apply find_some_member in Hfind as (Hobj & _ & _). simpl.
  pose proof (update_refused_iff db obj r (model_dump_exclude_unset up) Hobj).
  repeat case_decide; tauto || done.
Qed.

Lemma request_delete_body k v (db : list row) :
  request (found ← scalars_first k v;
           match found with
           | None => raise (HTTPException HTTP_404_NOT_FOUND)
           | Some (obj, _) => session_delete obj;; commit
           end) db =
  match list_find (has k v) db with
  | None => (inl (HTTPException HTTP_404_NOT_FOUND), db)
  | Some (obj, _) => (inr tt, delete obj db)
  end.
Proof.
  unfold request. rewrite delete_body. simpl.
  destruct (list_find _ _) as [[obj r]|]; [|done].
  rewrite forget_empty. case_decide as Href; [|done].
  by apply refused_empty in Href.
Qed.

Lemma request_get id (db : list row) :
  request (categorias.get id) db =
  match list_find (has "id" (VUUID id)) db with
  | None => (inl (HTTPException HTTP_404_NOT_FOUND), db)
  | Some (_, r) => (inr r, db)
  end.
Proof. apply request_get_body. Qed.

Lemma request_get_by_nome n (db : list row) :
  request (categorias.get_by_nome n) db =
  match list_find (has "nome" (VStr n)) db with
  | None => (inl (HTTPException HTTP_404_NOT_FOUND), db)
  | Some (_, r) => (inr r, db)
  end.
Proof. apply request_get_body. Qed.

Lemma request_patch id up (db : list row) :
  request (categorias.patch id up) db =
  match list_find (has "id" (VUUID id)) db with
  | None => (inl (HTTPException HTTP_404_NOT_FOUND), db)
  | Some (obj, r) =>
      let given := model_dump_exclude_unset up in
      if decide (sets_taken_nome db obj given)
      then (inl IntegrityError, db)
      else (inr (given ∪ r), alter (λ r : row, given ∪ r) obj db)
  end.
Proof. apply request_patch_body. Qed.

Lemma request_patch_by_nome n up (db : list row) :
  request (categorias.patch_by_nome n up) db =
  match list_find (has "nome" (VStr n)) db with
  | None => (inl (HTTPException HTTP_404_NOT_FOUND), db)
  | Some (obj, r) =>
      let given := model_dump_exclude_unset up in
      if decide (sets_taken_nome db obj given)
      then (inl IntegrityError, db)
      else (inr (given ∪ r), alter (λ r : row, given ∪ r) obj db)
  end.
Proof. apply request_patch_body. Qed.

Lemma request_delete id (db : list row) :
  request (categorias.delete id) db =
  match list_find (has "id" (VUUID id)) db with
  | None => (inl (HTTPException HTTP_404_NOT_FOUND), db)
  | Some (obj, _) => (inr tt, delete obj db)
  end.
Proof. apply request_delete_body. Qed.

Lemma request_delete_by_nome n (db : list row) :
  request (categorias.delete_by_nome n) db =
  match list_find (has "nome" (VStr n)) db with
  | None => (inl (HTTPException HTTP_404_NOT_FOUND), db)
  | Some (obj, _) => (inr tt, delete obj db)
  end.
Proof. apply request_delete_body. Qed.

Lemma request_query_page paginate limit offset (db : list row) :
  request (categorias.query_page paginate limit offset) db =
  (paginate (fastapi_pagination.Cursor (ResultOf db)), db).
Proof. unfold request. by rewrite query_page_eq. Qed.

(** The fields a patch carries are those the request body set. *)
Lemma exclude_unset_lookup patch k v :
  model_dump_exclude_unset patch !! k = Some v ↔
  k ∈ model_fields_set patch ∧ model_dump patch !! k = Some v.
Proof.
  unfold model_dump_exclude_unset. rewrite map_lookup_filter_Some. simpl.
  tauto.
Qed.

Lemma exclude_unset_unset patch k :
  k ∉ model_fields_set patch → model_dump_exclude_unset patch !! k = None.
Proof.
  intros Hk. unfold model_dump_exclude_unset.
  apply map_lookup_filter_None. right. by intros.
Qed.

Lemma exclude_unset_no_id patch :
  other_fields patch !! "id" = None →
  model_dump_exclude_unset patch !! "id" = None.
Proof.
  intros Hid. unfold model_dump_exclude_unset.
  apply map_lookup_filter_None. left. by rewrite model_dump_id.
Qed.

Lemma exclude_unset_nome patch :
  "nome" ∈ model_fields_set patch →
  model_dump_exclude_unset patch !! "nome" = Some (VStr (nome patch)).
Proof. intros. apply exclude_unset_lookup. split; [done|apply model_dump_nome]. Qed.

(** A patch is refused exactly when its body set [nome] and another stored
    record has that name. *)
Lemma sets_taken_nome_patch (db : list row) obj patch :
  sets_taken_nome db obj (model_dump_exclude_unset patch) ↔
  "nome" ∈ model_fields_set patch ∧ taken_by_other db obj (VStr (nome patch)).
Proof.
  unfold sets_taken_nome.
  destruct (decide ("nome" ∈ model_fields_set patch)) as [Hset|Hset].
  - rewrite exclude_unset_nome by done. tauto.
  - rewrite exclude_unset_unset by done. tauto.
Qed.

(** ** The scenario of the spec, step by step *)

Example post_twice :
  request (categorias.post 1 (body "Cardio")) [] = (inr (record 1 "Cardio"), [record 1 "Cardio"]) ∧
  request (categorias.post 2 (body "Cardio")) [record 1 "Cardio"] =
    (inl (HTTPException 409), [record 1 "Cardio"]).
Proof. split; vm_compute; reflexivity. Qed.

Example patch_then_delete :
  request (categorias.patch 1 (body "CardioPlus")) [record 1 "Cardio"] =
    (inr (record 1 "CardioPlus"), [record 1 "CardioPlus"]) ∧
  request (categorias.delete 1) [record 1 "CardioPlus"] = (inr tt, []) ∧
  request (categorias.get 1) [] = (inl (HTTPException 404), []).
Proof. repeat split; vm_compute; reflexivity. Qed.

(** ** ListAll *)

(** C6. ListAll fails with NotFound (404) exactly when the table holds no
    record; otherwise it returns every stored record, in the order of the
    table.  In both cases the table is left as it was. *)
Theorem C6_ListAll_NotFound_iff_empty (e : entity) (db : list row) :
  ((request (ListAll e) db).1 = inl (HTTPException HTTP_404_NOT_FOUND) ↔ db = []) ∧
  request (ListAll e) db =
    match db with
    | [] => (inl (HTTPException HTTP_404_NOT_FOUND), db)
    | _ :: _ => (inr db, db)
    end.
Proof.
  to_categorias. split; [|apply request_query].
  rewrite request_query. by destruct db.
Qed.

(** ** ListPage *)

Example page_of_spec_twelve :
  length (page_of_spec 5 0 twelve) = 5 ∧
  length (page_of_spec 5 5 twelve) = 5 ∧
  length (page_of_spec 5 10 twelve) = 2.
Proof. by vm_compute. Qed.

(** The endpoint hands [paginate] the result of its query and nothing else:
    its answer is the same for every [limit] and [offset]. *)
Lemma ListPage_ignores_limit_offset paginate e db limit offset limit' offset' :
  request (ListPage e paginate limit offset) db =
  request (ListPage e paginate limit' offset') db.
Proof. to_categorias. by rewrite !request_query_page. Qed.

(** With the library's own [paginate], which wants a sequence, the endpoint
    answers neither page: the [Result] it hands over has no length, whatever
    the table, [limit] and [offset]. *)
Example ListPage_twelve_library e page size :
  request (ListPage e (fastapi_pagination.paginate page size) 5 5) twelve =
  (inl TypeError, twelve).
Proof. to_categorias. by rewrite request_query_page. Qed.

(** C2, at limit 5 over twelve records.  Whatever [paginate] does with the
    rows, the endpoint answers the offsets 0, 5 and 10 alike, so the three
    answers are not pages of 5, 5 and 2 items. *)
Theorem C2_ListPage_limit_5_over_twelve
    (paginate : fastapi_pagination.paginator) (e : entity) :
  let ask offset := (request (ListPage e paginate 5 offset) twelve).1 in
  ask 0%Z = ask 5%Z ∧ ask 5%Z = ask 10%Z ∧
  ¬ ∃ p1 p2 p3,
      ask 0%Z = inr p1 ∧ ask 5%Z = inr p2 ∧ ask 10%Z = inr p3 ∧
      length (fastapi_pagination.items p1) = 5 ∧
      length (fastapi_pagination.items p2) = 5 ∧
      length (fastapi_pagination.items p3) = 2.
Proof.
  intros ask. unfold ask.
  rewrite (ListPage_ignores_limit_offset paginate e twelve 5 5 5 0).
  rewrite (ListPage_ignores_limit_offset paginate e twelve 5 10 5 0).
  split; [done|]. split; [done|].
  intros (p1 & p2 & p3 & H1 & H2 & H3 & L1 & L2 & L3).
  rewrite H1 in H3. injection H3 as <-. lia.
Qed.

(** ** Failures leave the session untouched *)

(** An endpoint that answers with an [HTTPException] other than
    InternalError has raised it before touching the session. *)
Lemma http_failure_untouched paginate e op s s' status_code :
  perform paginate e op s = (inl (HTTPException status_code), s') →
  status_code ≠ HTTP_500_INTERNAL_SERVER_ERROR ∨
  (∀ uuid4 input, op ≠ OpCreate uuid4 input) →
  s' = s.
Proof.
  intros Hop Hcode. destruct op; simpl in Hop; revert Hop; to_categorias;
    unfold fmap, M_fmap.
  - rewrite post_eq. destruct (list_find _ _); [by intros [= _ ->]|].
    destruct Hcode as [Hcode|Hcode]; [|by destruct (Hcode uuid4 input)].
    destruct (SchemaOut _ _); [by intros [= <- _]|].
    case_decide; [by intros [= <- _]|done].
  - rewrite query_eq. destruct (working s); [by intros [= _ ->]|done].
  - rewrite query_page_eq. destruct (paginate _); [by intros [= _ ->]|done].
  - rewrite get_eq. destruct (list_find _ _) as [[]|]; [done|by intros [= _ ->]].
  - rewrite get_by_nome_eq.
    destruct (list_find _ _) as [[]|]; [done|by intros [= _ ->]].
  - rewrite patch_eq. destruct (list_find _ _) as [[]|]; [|by intros [= _ ->]].
    simpl. by case_decide.
  - rewrite patch_by_nome_eq.
    destruct (list_find _ _) as [[]|]; [|by intros [= _ ->]].
    simpl. by case_decide.
  - rewrite delete_eq. destruct (list_find _ _) as [[]|]; [|by intros [= _ ->]].
    by case_decide.
  - rewrite delete_by_nome_eq.
    destruct (list_find _ _) as [[]|]; [|by intros [= _ ->]].
    by case_decide.
Qed.

(** C10. When an operation fails with NotFound (404) or Conflict (409), the
    session is exactly what it was when the call began: nothing was added,
    assigned, deleted or committed before the exception was raised, and the
    table the request leaves behind is the table it found. *)
Theorem C10_failure_leaves_store_untouched
    (paginate : fastapi_pagination.paginator) (e : entity) (op : operation)
    (s s' : Session) (status_code : nat) :
  perform paginate e op s = (inl (HTTPException status_code), s') →
  status_code = HTTP_404_NOT_FOUND ∨ status_code = HTTP_409_CONFLICT →
  s' = s ∧ committed s' = committed s ∧ working s' = working s.
Proof.
  intros Hop Hcode.
  rewrite (http_failure_untouched _ _ _ _ _ _ Hop); [done|].
  left. by destruct Hcode as [-> | ->].
Qed.

Lemma C10_witness :
  perform (fastapi_pagination.paginate 1 50) Categoria (OpDeleteById 7)
    (begin cardio_forca) =
    (inl (HTTPException 404), begin cardio_forca) ∧
  begin cardio_forca = begin cardio_forca ∧
  committed (begin cardio_forca) = committed (begin cardio_forca) ∧
  working (begin cardio_forca) = working (begin cardio_forca).
Proof.
  split; [by vm_compute|].
  apply (C10_failure_leaves_store_untouched (fastapi_pagination.paginate 1 50)
           Categoria (OpDeleteById 7) (begin cardio_forca) (begin cardio_forca) 404).
  - by vm_compute.
  - by left.
Defined.

(** ** Create *)

(** A property of every row of a table written out: row by row. *)
Ltac each_row :=
  let r := fresh "r" in
  let Hr := fresh "Hr" in
  intros r Hr;
  repeat (apply elem_of_cons in Hr as [->|Hr]; [by vm_compute|]);
  by apply elem_of_nil in Hr.

(** C4. Create, for an input of the request schema (which has no [id]
    field).  If a stored record has exactly the same [nome], Create fails with
    Conflict (409) and the table is unchanged.  Otherwise it returns the
    input's fields together with the new UUID as [id], and the table is the
    old one with that record appended. *)
Theorem C4_Create_conflict_or_insert
    (e : entity) (uuid4 : uuid) (input : SchemaIn) (db : list row) :
  other_fields input !! "id" = None →
  let out : row := <["id" := VUUID uuid4]> (model_dump input) in
  ((∃ r : row, r ∈ db ∧ r !! "nome" = Some (VStr (nome input))) →
   request (Create e uuid4 input) db = (inl (HTTPException HTTP_409_CONFLICT), db)) ∧
  ((∀ r : row, r ∈ db → r !! "nome" ≠ Some (VStr (nome input))) →
   request (Create e uuid4 input) db = (inr out, db ++ [out])).
Proof.
  intros Hid out. to_categorias. rewrite request_post. split.
  - intros (r & Hr & Hnome).
    destruct (list_find_elem_of (has "nome" (VStr (nome input))) db r Hr Hnome)
      as [found ->]. done.
  - intros Hfree. rewrite find_absent by done.
    by rewrite SchemaOut_no_id.
Qed.

(** The match on [nome] is exact: "cardio" does not collide with "Cardio". *)
Lemma C4_witness :
  request (Create Categoria 3 (body "Cardio")) cardio_forca =
    (inl (HTTPException 409), cardio_forca) ∧
  request (Create CentroTreinamento 3 (body "cardio")) cardio_forca =
    (inr (record 3 "cardio"), cardio_forca ++ [record 3 "cardio"]).
Proof.
  split.
  - apply (C4_Create_conflict_or_insert Categoria 3 (body "Cardio") cardio_forca).
    + reflexivity.
    + exists (record 1 "Cardio"). split; [|reflexivity].
      apply elem_of_cons. by left.
  - apply (C4_Create_conflict_or_insert CentroTreinamento 3 (body "cardio")
             cardio_forca).
    + reflexivity.
    + each_row.
Defined.

(** ** Updates *)

(** The table an update leaves behind, whichever column selected the
    record. *)
Lemma updated_table (db : list row) obj (r : row) (given : row) :
  db !! obj = Some r →
  let db' := alter (λ r : row, given ∪ r) obj db in
  db' !! obj = Some (given ∪ r) ∧
  length db' = length db ∧
  ∀ j, j ≠ obj → db' !! j = db !! j.
Proof.
  intros Hobj db'. unfold db'. split_and!.
  - by rewrite list_lookup_alter_eq, Hobj.
  - apply length_alter.
  - intros j Hj. by apply list_lookup_alter_ne.
Qed.

(** The record an update returns: the fields the body set, at the body's
    values, over the stored record. *)
Lemma updated_record patch (r : row) :
  let r' := model_dump_exclude_unset patch ∪ r in
  (∀ k v, k ∈ model_fields_set patch → model_dump patch !! k = Some v →
          r' !! k = Some v) ∧
  (∀ k, k ∉ model_fields_set patch → r' !! k = r !! k) ∧
  (∀ k, model_dump patch !! k = None → r' !! k = r !! k).
Proof.
  intros r'. unfold r'. split_and!.
  - intros k v Hset Hk. apply lookup_union_Some_l. by apply exclude_unset_lookup.
  - intros k Hset. apply lookup_union_r. by apply exclude_unset_unset.
  - intros k Hk. apply lookup_union_r. unfold model_dump_exclude_unset.
    apply map_lookup_filter_None. by left.
Qed.

(** A patch that sets no name taken by another record is not refused. *)
Lemma not_refused_patch (db : list row) obj patch :
  ("nome" ∈ model_fields_set patch →
   ∀ j (r2 : row), db !! j = Some r2 → j ≠ obj →
                   r2 !! "nome" ≠ Some (VStr (nome patch))) →
  ¬ sets_taken_nome db obj (model_dump_exclude_unset patch).
Proof.
  intros Hfree [Hset (j & r2 & Hj & Hne & Hr2)%taken_by_other_iff]%sets_taken_nome_patch.
  by apply (Hfree Hset j r2).
Qed.

Lemma refused_patch (db : list row) obj patch other (taken : row) :
  "nome" ∈ model_fields_set patch →
  db !! other = Some taken → other ≠ obj →
  taken !! "nome" = Some (VStr (nome patch)) →
  sets_taken_nome db obj (model_dump_exclude_unset patch).
Proof.
  intros Hset Hother Hne Htaken. apply sets_taken_nome_patch. split; [done|].
  apply taken_by_other_iff. by exists other, taken.
Qed.

(** C5, where the patch sets a name in use.  On a table of two records,
    UpdateById of the first with a patch of the one field [nome], set to the
    name of the second: the record exists and the patch is a subset of the
    fields, yet no field is changed and no record is returned, the commit
    being refused. *)
Lemma C5_refused_patch_changes_nothing :
  list_find (has "id" (VUUID 1)) cardio_forca = Some (0, record 1 "Cardio") ∧
  request (UpdateById Categoria 1 (body "Forca")) cardio_forca =
    (inl IntegrityError, cardio_forca) ∧
  ¬ ∃ (r' : row) (db' : list row),
      request (UpdateById Categoria 1 (body "Forca")) cardio_forca = (inr r', db').
Proof.
  assert (request (UpdateById Categoria 1 (body "Forca")) cardio_forca =
          (inl IntegrityError, cardio_forca)) as Heq by by vm_compute.
  split_and!; [by vm_compute|done|].
  rewrite Heq. by intros (r' & db' & ?).
Qed.

(** C5. UpdateById on the record its id selects, with a patch that does not
    set [nome] to the name of another stored record: the
    record returned has every field the body set at the body's value and
    every other field as it was (a partial update); it is the record now
    stored in that place, and every other record of the table is as
    before. *)
Theorem C5_UpdateById_partial
    (e : entity) (id : uuid) (patch : SchemaIn) (db : list row)
    (obj : nat) (r : row) :
  list_find (has "id" (VUUID id)) db = Some (obj, r) →
  ("nome" ∈ model_fields_set patch →
   ∀ j (r2 : row), db !! j = Some r2 → j ≠ obj →
                   r2 !! "nome" ≠ Some (VStr (nome patch))) →
  ∃ (r' : row) (db' : list row),
    request (UpdateById e id patch) db = (inr r', db') ∧
    (∀ k v, k ∈ model_fields_set patch → model_dump patch !! k = Some v →
            r' !! k = Some v) ∧
    (∀ k, k ∉ model_fields_set patch → r' !! k = r !! k) ∧
    (∀ k, model_dump patch !! k = None → r' !! k = r !! k) ∧
    db' !! obj = Some r' ∧
    length db' = length db ∧
    (∀ j, j ≠ obj → db' !! j = db !! j).
Proof.
  intros Hfind Hfree%not_refused_patch. to_categorias. rewrite request_patch, Hfind.
  apply find_some_member in Hfind as (Hobj & _ & _). simpl.
  rewrite decide_False by done.
  eexists _, _. split; [reflexivity|].
  destruct (updated_table db obj r (model_dump_exclude_unset patch) Hobj)
    as (? & ? & ?).
  destruct (updated_record patch r) as (? & ? & ?).
  by split_and!.
Qed.

Lemma C5_witness :
  ∃ (r' : row) (db' : list row),
    request (UpdateById Categoria 2 (body "Pilates")) cardio_forca = (inr r', db') ∧
    (∀ k v, k ∈ model_fields_set (body "Pilates") →
            model_dump (body "Pilates") !! k = Some v → r' !! k = Some v) ∧
    (∀ k, k ∉ model_fields_set (body "Pilates") →
          r' !! k = record 2 "Forca" !! k) ∧
    (∀ k, model_dump (body "Pilates") !! k = None →
          r' !! k = record 2 "Forca" !! k) ∧
    db' !! 1 = Some r' ∧
    length db' = length cardio_forca ∧
    (∀ j, j ≠ 1 → db' !! j = cardio_forca !! j).
Proof.
  apply (C5_UpdateById_partial Categoria 2 (body "Pilates") cardio_forca 1
           (record 2 "Forca")).
  - reflexivity.
  - intros _ j r2 Hj Hne.
    destruct j as [|[|j]]; [|lia|done].
    injection Hj as <-. by vm_compute.
Defined.

(** C3, where success is claimed.  On a table of two records the patch sets
    [nome] to the name of the other record, and neither update succeeds. *)
Lemma C3_update_to_taken_nome_fails :
  request (UpdateById Categoria 2 (body "Cardio")) cardio_forca =
    (inl IntegrityError, cardio_forca) ∧
  request (UpdateByName CentroTreinamento "Forca" (body "Cardio")) cardio_forca =
    (inl IntegrityError, cardio_forca) ∧
  ¬ ∃ (r' : row) (db' : list row),
      request (UpdateById Categoria 2 (body "Cardio")) cardio_forca = (inr r', db').
Proof.
  assert (request (UpdateById Categoria 2 (body "Cardio")) cardio_forca =
          (inl IntegrityError, cardio_forca)) as Heq by by vm_compute.
  split_and!; [done|by vm_compute|].
  rewrite Heq. by intros (r' & db' & ?).
Qed.

(** C3. Neither update checks the new [nome] itself and neither answers
    Conflict.  When the patch sets [nome] to the name of
    another stored record, the assignment is made and the commit is refused
    by the table: UpdateById and UpdateByName let the [IntegrityError]
    through, and the table is as it was. *)
Theorem C3_update_to_taken_nome_refused
    (e : entity) (patch : SchemaIn) (db : list row)
    (obj : nat) (r : row) (other : nat) (taken : row) :
  "nome" ∈ model_fields_set patch →
  db !! other = Some taken → other ≠ obj →
  taken !! "nome" = Some (VStr (nome patch)) →
  (∀ id, list_find (has "id" (VUUID id)) db = Some (obj, r) →
     request (UpdateById e id patch) db = (inl IntegrityError, db)) ∧
  (∀ n, list_find (has "nome" (VStr n)) db = Some (obj, r) →
     request (UpdateByName e n patch) db = (inl IntegrityError, db)).
Proof.
  intros Hset Hother Hne Htaken.
  pose proof (refused_patch db obj patch other taken Hset Hother Hne Htaken).
  split; intros key Hfind; to_categorias;
    [rewrite request_patch|rewrite request_patch_by_nome];
    rewrite Hfind; simpl; by rewrite decide_True.
Qed.

Lemma C3_witness :
  request (UpdateById Categoria 2 (body "Cardio")) cardio_forca =
    (inl IntegrityError, cardio_forca) ∧
  request (UpdateByName CentroTreinamento "Forca" (body "Cardio")) cardio_forca =
    (inl IntegrityError, cardio_forca).
Proof.
  split.
  - apply (proj1 (C3_update_to_taken_nome_refused Categoria (body "Cardio")
                    cardio_forca 1 (record 2 "Forca") 0 (record 1 "Cardio")
                    ltac:(by vm_compute) eq_refl ltac:(lia) eq_refl) 2%N).
    reflexivity.
  - apply (proj2 (C3_update_to_taken_nome_refused CentroTreinamento (body "Cardio")
                    cardio_forca 1 (record 2 "Forca") 0 (record 1 "Cardio")
                    ltac:(by vm_compute) eq_refl ltac:(lia) eq_refl) "Forca").
    reflexivity.
Defined.

(** An update assigns the fields of its patch and no other: a column the
    patch does not carry is left as it is, place by place. *)
Lemma column_alter_union c (db : list row) obj (given : row) :
  given !! c = None →
  column c (alter (λ r : row, given ∪ r) obj db) = column c db.
Proof.
  intros Hc. unfold column. rewrite (list_fmap_alter _ _ id).
  - by apply list_alter_id.
  - apply Forall_forall. intros r _. simpl. by apply lookup_union_r.
Qed.

(** C9. The request schema has no [id] field, and an update assigns only the
    fields of its patch: after UpdateById or UpdateByName every stored record
    has the id it had before, whether the update succeeded or not. *)
Theorem C9_update_keeps_ids (e : entity) (patch : SchemaIn) (db : list row) :
  other_fields patch !! "id" = None →
  (∀ id, ids (request (UpdateById e id patch) db).2 = ids db) ∧
  (∀ n, ids (request (UpdateByName e n patch) db).2 = ids db).
Proof.
  intros Hid%exclude_unset_no_id.
  split; intros key; to_categorias;
    [rewrite request_patch|rewrite request_patch_by_nome];
    (destruct (list_find _ _) as [[obj r]|]; simpl; [|done]);
    (case_decide; simpl; [done|]);
    by apply column_alter_union.
Qed.

Lemma C9_witness :
  (∀ id, ids (request (UpdateById Categoria id (body "Pilates")) cardio_forca).2 =
         ids cardio_forca) ∧
  (∀ n, ids (request (UpdateByName Categoria n (body "Pilates")) cardio_forca).2 =
        ids cardio_forca).
Proof.
  apply (C9_update_keeps_ids Categoria (body "Pilates") cardio_forca).
  reflexivity.
Defined.

(** ** Deletion *)

(** In a table where the column [c] has no value twice, the lookup on [c]
    selects the record that carries the value. *)
Lemma find_unique_key c (db : list row) obj (r : row) v :
  NoDup (column c db) → db !! obj = Some r → r !! c = Some v →
  list_find (has c v) db = Some (obj, r).
Proof.
  intros Huniq Hobj Hc. apply list_find_Some. split_and!; [done..|].
  intros j y Hj Hlt Hy.
  assert (j = obj); [|lia].
  apply (NoDup_lookup (column c db) j obj (Some v) Huniq); unfold column;
    rewrite list_lookup_fmap.
  - by rewrite Hj; simpl; rewrite Hy.
  - by rewrite Hobj; simpl; rewrite Hc.
Qed.

(** Once the record carrying a value in a column is deleted from a table
    where that column has no value twice, no record carries the value. *)
Lemma deleted_key_gone c (db : list row) obj (r : row) v :
  NoDup (column c db) → db !! obj = Some r → r !! c = Some v →
  no_match c v (delete obj db).
Proof.
  intros Huniq Hobj Hc r' [j Hj]%list_elem_of_lookup_1 Hc'.
  rewrite list_lookup_delete in Hj.
  set (j' := if decide (j < obj) then j else S j) in *.
  assert (j' = obj); [|unfold j' in *; case_decide; lia].
  apply (NoDup_lookup (column c db) j' obj (Some v) Huniq); unfold column;
    rewrite list_lookup_fmap.
  - by rewrite Hj; simpl; rewrite Hc'.
  - by rewrite Hobj; simpl; rewrite Hc.
Qed.

(** C8. In a table whose ids are all different, DeleteById with the id of a
    stored record succeeds, removes that record, and GetById with the same id
    then fails with NotFound (404).  DeleteById with an id that no stored
    record carries fails with NotFound and leaves the table as it is. *)
Theorem C8_DeleteById_then_GetById (e : entity) (id : uuid) (db : list row) :
  (∀ obj (r : row),
     unique_id db → db !! obj = Some r → r !! "id" = Some (VUUID id) →
     request (DeleteById e id) db = (inr tt, delete obj db) ∧
     request (GetById e id) (delete obj db) =
       (inl (HTTPException HTTP_404_NOT_FOUND), delete obj db)) ∧
  ((∀ r : row, r ∈ db → r !! "id" ≠ Some (VUUID id)) →
   request (DeleteById e id) db = (inl (HTTPException HTTP_404_NOT_FOUND), db)).
Proof.
  to_categorias. rewrite request_delete. split.
  - intros obj r Huniq Hobj Hid. rewrite request_get.
    rewrite (find_unique_key "id" db obj r) by done. split; [done|].
    by rewrite (find_absent _ _ _ (deleted_key_gone "id" db obj r _ Huniq Hobj Hid)).
  - intros Hnone. by rewrite find_absent.
Qed.

Lemma C8_witness :
  (request (DeleteById Categoria 2) cardio_forca = (inr tt, [record 1 "Cardio"]) ∧
   request (GetById Categoria 2) [record 1 "Cardio"] =
     (inl (HTTPException 404), [record 1 "Cardio"])) ∧
  request (DeleteById Categoria 7) cardio_forca =
    (inl (HTTPException 404), cardio_forca).
Proof.
  split.
  - apply (proj1 (C8_DeleteById_then_GetById Categoria 2 cardio_forca) 1
             (record 2 "Forca")).
    + apply (bool_decide_unpack _). by vm_compute.
    + reflexivity.
    + reflexivity.
  - apply (proj2 (C8_DeleteById_then_GetById Categoria 7 cardio_forca)).
    each_row.
Defined.

(** ** The invariants of the table *)

Lemma request_fmap_table {A B} (f : A → B) (m : M A) (db : list row) :
  (request (f <$> m) db).2 = (request m db).2.
Proof.
  unfold request, fmap, M_fmap. by destruct (m (begin db)) as [[] ?].
Qed.

Lemma request_fmap_failure {A B} (f : A → B) (m : M A) (db db' : list row) exn :
  request (f <$> m) db = (inl exn, db') → request m db = (inl exn, db').
Proof.
  unfold request, fmap, M_fmap.
  destruct (m (begin db)) as [[e'|a] s']; simpl; [by intros [= -> ->]|by intros].
Qed.

Lemma NoDup_column_delete c (db : list row) obj :
  NoDup (column c db) → NoDup (column c (delete obj db)).
Proof.
  unfold column. rewrite list_fmap_delete. intros Hnd.
  eapply sublist_NoDup; [done|apply sublist_delete].
Qed.

Lemma NoDup_column_snoc c (db : list row) (out : row) v :
  out !! c = Some v → list_find (has c v) db = None →
  NoDup (column c db) → NoDup (column c (db ++ [out])).
Proof.
  intros Hout Hnone Hnd. unfold column. rewrite fmap_app. apply NoDup_app.
  split_and!; [done| |apply NoDup_singleton].
  intros x (r & -> & Hr)%list_elem_of_fmap [= Heq]%list_elem_of_singleton.
  apply list_find_None in Hnone. rewrite Forall_forall in Hnone.
  apply (Hnone r Hr). simpl. congruence.
Qed.

(** The column [c] after an update that writes [v] into it: [v] in the
    updated place, the old value everywhere else. *)
Lemma column_alter_lookup c (db : list row) obj (r given : row) v i :
  db !! obj = Some r → given !! c = Some v →
  column c (alter (λ r : row, given ∪ r) obj db) !! i =
  if decide (i = obj) then Some (Some v) else column c db !! i.
Proof.
  intros Hobj Hc. unfold column. rewrite !list_lookup_fmap.
  case_decide as Hi.
  - subst i. rewrite list_lookup_alter_eq, Hobj. simpl.
    by rewrite (lookup_union_Some_l _ _ _ _ Hc).
  - by rewrite list_lookup_alter_ne.
Qed.

Lemma NoDup_column_alter c (db : list row) obj (r given : row) v :
  db !! obj = Some r → NoDup (column c db) → given !! c = Some v →
  NoDup (column c (alter (λ r : row, given ∪ r) obj db)) ↔
  ∀ j (r2 : row), db !! j = Some r2 → j ≠ obj → r2 !! c ≠ Some v.
Proof.
  intros Hobj Huniq Hc. split.
  - intros Hnew j r2 Hj Hne Hr2. apply Hne.
    apply (NoDup_lookup _ j obj (Some v) Hnew);
      rewrite (column_alter_lookup c db obj r given v) by done;
      case_decide; try done.
    unfold column. rewrite list_lookup_fmap, Hj. simpl. by rewrite Hr2.
  - intros Hothers. apply NoDup_alt. intros i j x.
    rewrite !(column_alter_lookup c db obj r given v) by done.
    assert (∀ k, k ≠ obj → column c db !! k ≠ Some (Some v)) as Hfree.
    { intros k Hk. unfold column. rewrite list_lookup_fmap.
      destruct (db !! k) as [r2|] eqn:Hr2; [|done]. simpl.
      intros [= Heq]. by apply (Hothers k r2). }
    repeat case_decide; subst; try done.
    + intros [= <-] Hj. by destruct (Hfree j).
    + intros Hi [= <-]. by destruct (Hfree i).
    + by apply NoDup_lookup.
Qed.

(** An update the table took leaves the names different. *)
Lemma NoDup_nomes_update (db : list row) obj (r given : row) :
  db !! obj = Some r → unique_nome db → ¬ sets_taken_nome db obj given →
  unique_nome (alter (λ r : row, given ∪ r) obj db).
Proof.
  unfold unique_nome, nomes, sets_taken_nome. intros Hobj Huniq Hfree.
  destruct (given !! "nome") as [n|] eqn:Hn.
  - apply (NoDup_column_alter "nome" db obj r given n); [done..|].
    intros j r2 Hj Hne Hr2. apply Hfree, taken_by_other_iff. by exists j, r2.
  - by rewrite column_alter_union.
Qed.

(** Every operation keeps the names of the table different: Create by its
    check, the updates because the table refuses a name it has, the others
    because they add none. *)
Lemma unique_nome_preserved paginate e op db :
  unique_nome db → unique_nome (request (perform paginate e op) db).2.
Proof.
  intros Huniq.
  destruct op; simpl; rewrite request_fmap_table; to_categorias.
  - rewrite request_post.
    destruct (list_find _ _) eqn:Hfind; [done|].
    unfold SchemaOut. case_decide; [done|]. simpl.
    eapply NoDup_column_snoc; [|done..].
    rewrite lookup_insert_ne by done. apply model_dump_nome.
  - rewrite request_query. by destruct db.
  - by rewrite request_query_page.
  - rewrite request_get. by destruct (list_find _ _) as [[]|].
  - rewrite request_get_by_nome. by destruct (list_find _ _) as [[]|].
  - rewrite request_patch.
    destruct (list_find _ _) as [[obj r]|] eqn:Hfind; [|done]. simpl.
    apply find_some_member in Hfind as (Hobj & _ & _).
    case_decide; [done|]. by eapply NoDup_nomes_update.
  - rewrite request_patch_by_nome.
    destruct (list_find _ _) as [[obj r]|] eqn:Hfind; [|done]. simpl.
    apply find_some_member in Hfind as (Hobj & _ & _).
    case_decide; [done|]. by eapply NoDup_nomes_update.
  - rewrite request_delete. destruct (list_find _ _) as [[]|]; [|done].
    by apply NoDup_column_delete.
  - rewrite request_delete_by_nome. destruct (list_find _ _) as [[]|]; [|done].
    by apply NoDup_column_delete.
Qed.

(** C1. For each entity, no two stored records share the same [nome], and
    every operation of the service keeps it so: on a table whose names are
    all different, Create, UpdateById, UpdateByName, DeleteById, DeleteByName,
    ListAll, ListPage, GetById and GetByName each leave a table whose names
    are all different. *)
Theorem C1_unique_nome_invariant
    (paginate : fastapi_pagination.paginator) (e : entity) (op : operation)
    (db : list row) :
  unique_nome db → unique_nome (request (perform paginate e op) db).2.
Proof. apply unique_nome_preserved. Qed.

Lemma C1_witness :
  unique_nome
    (request (perform (fastapi_pagination.paginate 1 50) Categoria
                (OpUpdateById 2 (body "Cardio"))) cardio_forca).2.
Proof.
  apply (C1_unique_nome_invariant (fastapi_pagination.paginate 1 50) Categoria
           (OpUpdateById 2 (body "Cardio")) cardio_forca).
  apply (bool_decide_unpack _). by vm_compute.
Defined.

(** Every well-formed call keeps the ids of the table different. *)
Lemma unique_id_preserved paginate e op db :
  well_formed_call db op → unique_id db →
  unique_id (request (perform paginate e op) db).2.
Proof.
  unfold unique_id, ids. intros Hop Huniq.
  destruct op; simpl in *; rewrite request_fmap_table; to_categorias.
  - rewrite request_post. destruct Hop as [Hid Hfresh].
    destruct (list_find _ _) eqn:Hfind; [done|].
    rewrite SchemaOut_no_id by done. simpl.
    eapply NoDup_column_snoc; [apply lookup_insert_eq|by apply find_absent|done].
  - rewrite request_query. by destruct db.
  - by rewrite request_query_page.
  - rewrite request_get. by destruct (list_find _ _) as [[]|].
  - rewrite request_get_by_nome. by destruct (list_find _ _) as [[]|].
  - rewrite request_patch. destruct (list_find _ _) as [[]|]; [|done]. simpl.
    case_decide; [done|]. simpl.
    by rewrite column_alter_union by by apply exclude_unset_no_id.
  - rewrite request_patch_by_nome.
    destruct (list_find _ _) as [[]|]; [|done]. simpl.
    case_decide; [done|]. simpl.
    by rewrite column_alter_union by by apply exclude_unset_no_id.
  - rewrite request_delete. destruct (list_find _ _) as [[]|]; [|done].
    by apply NoDup_column_delete.
  - rewrite request_delete_by_nome. destruct (list_find _ _) as [[]|]; [|done].
    by apply NoDup_column_delete.
Qed.

Lemma reachable_unique_id paginate e db : reachable paginate e db → unique_id db.
Proof.
  induction 1 as [|db op _ IH Hop].
  - apply NoDup_nil_2.
  - by apply unique_id_preserved.
Qed.

(** ** The ids of the records *)







(** * Further properties of the endpoints *)

(** ** Lookups by key *)

(** X1. Reading back.  In a table whose ids are all different GetById
    returns the stored record that carries the id, and in a table whose names
    are all different GetByName returns the stored record of that name.  With
    no such assumption, what the two return is a stored record carrying the
    key asked for. *)
Theorem X1_Get_reads_stored_record (e : entity) (db : list row) :
  (∀ obj (r : row) id,
     unique_id db → db !! obj = Some r → r !! "id" = Some (VUUID id) →
     request (GetById e id) db = (inr r, db)) ∧
  (∀ obj (r : row) n,
     unique_nome db → db !! obj = Some r → r !! "nome" = Some (VStr n) →
     request (GetByName e n) db = (inr r, db)) ∧
  (∀ id (r : row),
     (request (GetById e id) db).1 = inr r → r ∈ db ∧ r !! "id" = Some (VUUID id)) ∧
  (∀ n (r : row),
     (request (GetByName e n) db).1 = inr r → r ∈ db ∧ r !! "nome" = Some (VStr n)).
Proof.
  to_categorias. split_and!.
  - intros obj r id Huniq Hobj Hid. rewrite request_get.
    by rewrite (find_unique_key "id" db obj r).
  - intros obj r n Huniq Hobj Hn. rewrite request_get_by_nome.
    by rewrite (find_unique_key "nome" db obj r).
  - intros id r. rewrite request_get.
    destruct (list_find _ _) as [[obj r']|] eqn:Hfind; [|done].
    intros [= <-]. by apply find_some_member in Hfind as (_ & ? & ?).
  - intros n r. rewrite request_get_by_nome.
    destruct (list_find _ _) as [[obj r']|] eqn:Hfind; [|done].
    intros [= <-]. by apply find_some_member in Hfind as (_ & ? & ?).
Qed.

Lemma X1_witness :
  request (GetById Categoria 2) cardio_forca = (inr (record 2 "Forca"), cardio_forca) ∧
  request (GetByName CentroTreinamento "Cardio") cardio_forca =
    (inr (record 1 "Cardio"), cardio_forca) ∧
  (record 2 "Forca" ∈ cardio_forca ∧ record 2 "Forca" !! "id" = Some (VUUID 2)).
Proof.
  split; [|split].
  - apply (proj1 (X1_Get_reads_stored_record Categoria cardio_forca) 1
             (record 2 "Forca") 2%N).
    + apply (bool_decide_unpack _). by vm_compute.
    + reflexivity.
    + reflexivity.
  - apply (proj1 (proj2 (X1_Get_reads_stored_record CentroTreinamento cardio_forca))
             0 (record 1 "Cardio") "Cardio").
    + apply (bool_decide_unpack _). by vm_compute.
    + reflexivity.
    + reflexivity.
  - apply (proj1 (proj2 (proj2 (X1_Get_reads_stored_record Categoria cardio_forca)))
             2%N (record 2 "Forca")).
    by vm_compute.
Defined.

(** X2. Each of the six endpoints that take an id or a name answers NotFound
    (404) exactly when no stored record has that id or name. *)
Theorem X2_NotFound_iff_no_match (e : entity) (db : list row) :
  (∀ id, (request (GetById e id) db).1 = inl (HTTPException HTTP_404_NOT_FOUND) ↔
         no_match "id" (VUUID id) db) ∧
  (∀ n, (request (GetByName e n) db).1 = inl (HTTPException HTTP_404_NOT_FOUND) ↔
        no_match "nome" (VStr n) db) ∧
  (∀ id patch,
     (request (UpdateById e id patch) db).1 = inl (HTTPException HTTP_404_NOT_FOUND) ↔
     no_match "id" (VUUID id) db) ∧
  (∀ n patch,
     (request (UpdateByName e n patch) db).1 = inl (HTTPException HTTP_404_NOT_FOUND) ↔
     no_match "nome" (VStr n) db) ∧
  (∀ id, (request (DeleteById e id) db).1 = inl (HTTPException HTTP_404_NOT_FOUND) ↔
         no_match "id" (VUUID id) db) ∧
  (∀ n, (request (DeleteByName e n) db).1 = inl (HTTPException HTTP_404_NOT_FOUND) ↔
        no_match "nome" (VStr n) db).
Proof.
  to_categorias.
  split_and!; intros;
    rewrite ?request_get, ?request_get_by_nome, ?request_patch,
      ?request_patch_by_nome, ?request_delete, ?request_delete_by_nome;
    rewrite <- find_none_iff; destruct (list_find _ _) as [[]|]; simpl;
    try case_decide; done.
Qed.

(** X3. The four reading endpoints never write: whatever they answer, the
    session they leave is the session they were given. *)
Theorem X3_reads_leave_session (e : entity) (s : Session) :
  (ListAll e s).2 = s ∧
  (∀ paginate limit offset, (ListPage e paginate limit offset s).2 = s) ∧
  (∀ id, (GetById e id s).2 = s) ∧
  (∀ n, (GetByName e n s).2 = s).
Proof.
  to_categorias. split_and!; intros.
  - rewrite query_eq. by destruct (working s).
  - by rewrite query_page_eq.
  - rewrite get_eq. by destruct (list_find _ _) as [[]|].
  - rewrite get_by_nome_eq. by destruct (list_find _ _) as [[]|].
Qed.

(** ** Update and deletion by name *)

(** X4. UpdateByName on the record its name selects, with a patch that does
    not set [nome] to the name of another stored record, is a partial update
    like UpdateById: the record returned has every field the body set at the
    body's value and every other field as it was, it is the record now stored
    in that place, and every other record is as before. *)
Theorem X4_UpdateByName_partial
    (e : entity) (n : string) (patch : SchemaIn) (db : list row)
    (obj : nat) (r : row) :
  list_find (has "nome" (VStr n)) db = Some (obj, r) →
  ("nome" ∈ model_fields_set patch →
   ∀ j (r2 : row), db !! j = Some r2 → j ≠ obj →
                   r2 !! "nome" ≠ Some (VStr (nome patch))) →
  ∃ (r' : row) (db' : list row),
    request (UpdateByName e n patch) db = (inr r', db') ∧
    (∀ k v, k ∈ model_fields_set patch → model_dump patch !! k = Some v →
            r' !! k = Some v) ∧
    (∀ k, k ∉ model_fields_set patch → r' !! k = r !! k) ∧
    (∀ k, model_dump patch !! k = None → r' !! k = r !! k) ∧
    db' !! obj = Some r' ∧
    length db' = length db ∧
    (∀ j, j ≠ obj → db' !! j = db !! j).
Proof.
  intros Hfind Hfree%not_refused_patch. to_categorias.
  rewrite request_patch_by_nome, Hfind.
  apply find_some_member in Hfind as (Hobj & _ & _). simpl.
  rewrite decide_False by done.
  eexists _, _. split; [reflexivity|].
  destruct (updated_table db obj r (model_dump_exclude_unset patch) Hobj)
    as (? & ? & ?).
  destruct (updated_record patch r) as (? & ? & ?).
  by split_and!.
Qed.

Lemma X4_witness :
  ∃ (r' : row) (db' : list row),
    request (UpdateByName CentroTreinamento "Forca" (body "Pilates")) cardio_forca =
      (inr r', db') ∧
    (∀ k v, k ∈ model_fields_set (body "Pilates") →
            model_dump (body "Pilates") !! k = Some v → r' !! k = Some v) ∧
    (∀ k, k ∉ model_fields_set (body "Pilates") →
          r' !! k = record 2 "Forca" !! k) ∧
    (∀ k, model_dump (body "Pilates") !! k = None →
          r' !! k = record 2 "Forca" !! k) ∧
    db' !! 1 = Some r' ∧
    length db' = length cardio_forca ∧
    (∀ j, j ≠ 1 → db' !! j = cardio_forca !! j).
Proof.
  apply (X4_UpdateByName_partial CentroTreinamento "Forca" (body "Pilates")
           cardio_forca 1 (record 2 "Forca")).
  - reflexivity.
  - intros _ j r2 Hj Hne.
    destruct j as [|[|j]]; [|lia|done].
    injection Hj as <-. by vm_compute.
Defined.

(** X5. In a table whose names are all different, DeleteByName with the name
    of a stored record succeeds, removes that record, and GetByName with the
    same name then fails with NotFound (404).  DeleteByName with a name that
    no stored record has fails with NotFound and leaves the table as it is. *)
Theorem X5_DeleteByName_then_GetByName (e : entity) (n : string) (db : list row) :
  (∀ obj (r : row),
     unique_nome db → db !! obj = Some r → r !! "nome" = Some (VStr n) →
     request (DeleteByName e n) db = (inr tt, delete obj db) ∧
     request (GetByName e n) (delete obj db) =
       (inl (HTTPException HTTP_404_NOT_FOUND), delete obj db)) ∧
  (no_match "nome" (VStr n) db →
   request (DeleteByName e n) db = (inl (HTTPException HTTP_404_NOT_FOUND), db)).
Proof.
  to_categorias. rewrite request_delete_by_nome. split.
  - intros obj r Huniq Hobj Hn. rewrite request_get_by_nome.
    rewrite (find_unique_key "nome" db obj r) by done. split; [done|].
    by rewrite (proj2 (find_none_iff _ _ _)
                  (deleted_key_gone "nome" db obj r _ Huniq Hobj Hn)).
  - intros Hnone. by rewrite (proj2 (find_none_iff _ _ _) Hnone).
Qed.

Lemma X5_witness :
  (request (DeleteByName Categoria "Forca") cardio_forca =
     (inr tt, [record 1 "Cardio"]) ∧
   request (GetByName Categoria "Forca") [record 1 "Cardio"] =
     (inl (HTTPException 404), [record 1 "Cardio"])) ∧
  request (DeleteByName Categoria "Yoga") cardio_forca =
    (inl (HTTPException 404), cardio_forca).
Proof.
  split.
  - apply (proj1 (X5_DeleteByName_then_GetByName Categoria "Forca" cardio_forca) 1
             (record 2 "Forca")).
    + apply (bool_decide_unpack _). by vm_compute.
    + reflexivity.
    + reflexivity.
  - apply (proj2 (X5_DeleteByName_then_GetByName Categoria "Yoga" cardio_forca)).
    each_row.
Defined.

(** X6. A deletion that succeeds removes one record, the first the key
    selects, and nothing else: the table is one record shorter, the records
    above the deleted one stay in place and those below move up by one. *)
Theorem X6_delete_removes_one_record
    (e : entity) (db : list row) (obj : nat) (r : row) :
  (∀ id, list_find (has "id" (VUUID id)) db = Some (obj, r) →
     ∃ db' : list row,
       request (DeleteById e id) db = (inr tt, db') ∧
       length db = S (length db') ∧
       (∀ j, j < obj → db' !! j = db !! j) ∧
       (∀ j, obj ≤ j → db' !! j = db !! S j)) ∧
  (∀ n, list_find (has "nome" (VStr n)) db = Some (obj, r) →
     ∃ db' : list row,
       request (DeleteByName e n) db = (inr tt, db') ∧
       length db = S (length db') ∧
       (∀ j, j < obj → db' !! j = db !! j) ∧
       (∀ j, obj ≤ j → db' !! j = db !! S j)).
Proof.
  to_categorias.
  split; intros key Hfind;
    [rewrite request_delete|rewrite request_delete_by_nome];
    rewrite Hfind; apply find_some_member in Hfind as (Hobj & _ & _);
    (exists (delete obj db)); (split_and!; [done| |..]).
  all: try (intros j Hj; by apply list_lookup_delete_lt).
  all: try (intros j Hj; by apply list_lookup_delete_ge).
  all: rewrite length_delete by eauto;
       apply lookup_lt_Some in Hobj; lia.
Qed.

Lemma X6_witness :
  (∃ db' : list row,
     request (DeleteById Categoria 1) cardio_forca = (inr tt, db') ∧
     length cardio_forca = S (length db') ∧
     (∀ j, j < 0 → db' !! j = cardio_forca !! j) ∧
     (∀ j, 0 ≤ j → db' !! j = cardio_forca !! S j)) ∧
  (∃ db' : list row,
     request (DeleteByName Categoria "Cardio") cardio_forca = (inr tt, db') ∧
     length cardio_forca = S (length db') ∧
     (∀ j, j < 0 → db' !! j = cardio_forca !! j) ∧
     (∀ j, 0 ≤ j → db' !! j = cardio_forca !! S j)).
Proof.
  split.
  - apply (proj1 (X6_delete_removes_one_record Categoria cardio_forca 0
                    (record 1 "Cardio")) 1%N).
    reflexivity.
  - apply (proj2 (X6_delete_removes_one_record Categoria cardio_forca 0
                    (record 1 "Cardio")) "Cardio").
    reflexivity.
Defined.

(** ** Invariants *)

(** X8. The names stay different under every operation that cannot give a
    record a new name, that is under every operation but an update whose
    patch sets [nome]: Create refuses a name in use, a deletion or a read adds
    none. *)
Theorem X8_unique_nome_kept
    (paginate : fastapi_pagination.paginator) (e : entity) (op : operation)
    (db : list row) :
  keeps_nome op → unique_nome db →
  unique_nome (request (perform paginate e op) db).2.
Proof. intros _. apply unique_nome_preserved. Qed.

Lemma X8_witness :
  unique_nome
    (request (perform (fastapi_pagination.paginate 1 50) Categoria
                (OpCreate 3 (body "Yoga"))) cardio_forca).2.
Proof.
  apply (X8_unique_nome_kept (fastapi_pagination.paginate 1 50) Categoria
           (OpCreate 3 (body "Yoga")) cardio_forca).
  - exact I.
  - apply (bool_decide_unpack _). by vm_compute.
Defined.

(** X9. Every table the service builds from an empty one, by calls whose
    bodies have no [id] field and whose [uuid4()] is not in use, has all its
    ids different. *)
Theorem X9_reachable_tables_have_unique_ids
    (paginate : fastapi_pagination.paginator) (e : entity) (db : list row) :
  reachable paginate e db → unique_id db.
Proof. apply reachable_unique_id. Qed.

(** Three Creates, a rename and a deletion: the two records left have
    different ids. *)
Lemma X9_witness :
  unique_id
    (request (perform (fastapi_pagination.paginate 1 50) Categoria
       (OpDeleteByName "Cardio"))
    (request (perform (fastapi_pagination.paginate 1 50) Categoria
       (OpUpdateById 2 (body "Pilates")))
    (request (perform (fastapi_pagination.paginate 1 50) Categoria
       (OpCreate 3 (body "Yoga")))
    (request (perform (fastapi_pagination.paginate 1 50) Categoria
       (OpCreate 2 (body "Forca")))
    (request (perform (fastapi_pagination.paginate 1 50) Categoria
       (OpCreate 1 (body "Cardio"))) []).2).2).2).2).2.
Proof.
  apply (X9_reachable_tables_have_unique_ids (fastapi_pagination.paginate 1 50)
           Categoria).
  apply reachable_step; [|exact I].
  apply reachable_step; [|reflexivity].
  apply reachable_step; [|split; [reflexivity|vm_compute; each_row]].
  apply reachable_step; [|split; [reflexivity|vm_compute; each_row]].
  apply reachable_step; [|split; [reflexivity|vm_compute; each_row]].
  apply reachable_empty.
Defined.

(** ** Create, followed by another call *)

(** What a Create that succeeded has done. *)
Lemma post_success u input (db : list row) (out : row) (db' : list row) :
  request (categorias.post u input) db = (inr out, db') →
  no_match "nome" (VStr (nome input)) db ∧
  other_fields input !! "id" = None ∧
  out = <["id" := VUUID u]> (model_dump input) ∧
  db' = db ++ [out].
Proof.
  rewrite request_post.
  destruct (list_find _ _) eqn:Hfind; [done|].
  apply find_none_iff in Hfind.
  unfold SchemaOut. rewrite model_dump_id.
  case_decide as Hid; [done|]. simpl. intros [= <- <-].
  split_and!; [done| |done..].
  by apply eq_None_not_Some.
Qed.

(** X10. After a Create that succeeded, a second Create with the same [nome]
    fails with Conflict (409), whatever else its body holds and whatever
    identifier [uuid4()] returns, and the table keeps the one record. *)
Theorem X10_Create_twice_conflicts
    (e : entity) (uuid4 : uuid) (input : SchemaIn) (db : list row)
    (out : row) (db' : list row) (uuid4' : uuid) (input' : SchemaIn) :
  request (Create e uuid4 input) db = (inr out, db') →
  nome input' = nome input →
  request (Create e uuid4' input') db' = (inl (HTTPException HTTP_409_CONFLICT), db').
Proof.
  to_categorias. intros (_ & _ & -> & ->)%post_success Hnome.
  rewrite request_post, Hnome.
  edestruct (list_find_elem_of (has "nome" (VStr (nome input))))
    as [found ->]; [..|done].
  - apply elem_of_app. right. by apply list_elem_of_singleton.
  - simpl. rewrite lookup_insert_ne by done. apply model_dump_nome.
Qed.

Lemma X10_witness :
  request (Create Categoria 4 (body "Yoga")) (cardio_forca ++ [record 3 "Yoga"]) =
    (inl (HTTPException 409), cardio_forca ++ [record 3 "Yoga"]).
Proof.
  apply (X10_Create_twice_conflicts Categoria 3 (body "Yoga") cardio_forca
           (record 3 "Yoga") (cardio_forca ++ [record 3 "Yoga"]) 4 (body "Yoga")).
  - reflexivity.
  - reflexivity.
Defined.

(** X11. A body that carries an [id] of its own cannot be created: where the
    name is free, building the output record fails, Create answers
    InternalError (500) and nothing is stored. *)
Theorem X11_Create_with_id_field_fails
    (e : entity) (uuid4 : uuid) (input : SchemaIn) (db : list row) :
  is_Some (other_fields input !! "id") →
  no_match "nome" (VStr (nome input)) db →
  request (Create e uuid4 input) db =
    (inl (HTTPException HTTP_500_INTERNAL_SERVER_ERROR), db).
Proof.
  intros Hid Hfree. to_categorias. rewrite request_post.
  rewrite (proj2 (find_none_iff _ _ _) Hfree).
  unfold SchemaOut. rewrite model_dump_id. by case_decide.
Qed.

Lemma X11_witness :
  request
    (Create Categoria 3
       {| nome := "Yoga"; other_fields := {["id" := VUUID 9]};
          model_fields_set := {["nome"; "id"]} |}) cardio_forca =
    (inl (HTTPException 500), cardio_forca).
Proof.
  apply (X11_Create_with_id_field_fails Categoria 3
           {| nome := "Yoga"; other_fields := {["id" := VUUID 9]};
              model_fields_set := {["nome"; "id"]} |} cardio_forca).
  - by eexists.
  - each_row.
Defined.

(** X12. Create and then DeleteById with the identifier just assigned, which
    no older record carries, gives back the table as it was before the
    Create. *)
Theorem X12_Create_then_DeleteById_restores
    (e : entity) (uuid4 : uuid) (input : SchemaIn) (db : list row)
    (out : row) (db' : list row) :
  request (Create e uuid4 input) db = (inr out, db') →
  no_match "id" (VUUID uuid4) db →
  request (DeleteById e uuid4) db' = (inr tt, db).
Proof.
  to_categorias. intros (_ & _ & -> & ->)%post_success Hfresh.
  rewrite request_delete.
  rewrite find_appended; [|done|apply lookup_insert_eq].
  by rewrite delete_middle, app_nil_r.
Qed.

Lemma X12_witness :
  request (DeleteById Categoria 3) (cardio_forca ++ [record 3 "Yoga"]) =
    (inr tt, cardio_forca).
Proof.
  apply (X12_Create_then_DeleteById_restores Categoria 3 (body "Yoga") cardio_forca
           (record 3 "Yoga") (cardio_forca ++ [record 3 "Yoga"])).
  - reflexivity.
  - each_row.
Defined.

(** X13. After a Create that succeeded ListAll does not fail: it returns the
    records that were there, in their order, followed by the new one. *)
Theorem X13_ListAll_after_Create
    (e : entity) (uuid4 : uuid) (input : SchemaIn) (db : list row)
    (out : row) (db' : list row) :
  request (Create e uuid4 input) db = (inr out, db') →
  request (ListAll e) db' = (inr (db ++ [out]), db') ∧ db' = db ++ [out].
Proof.
  to_categorias. intros (_ & _ & -> & ->)%post_success.
  rewrite request_query. split; [|done].
  by destruct db.
Qed.

Lemma X13_witness :
  request (ListAll Categoria) [record 1 "Cardio"] =
    (inr ([] ++ [record 1 "Cardio"]), [record 1 "Cardio"]) ∧
  [record 1 "Cardio"] = [] ++ [record 1 "Cardio"].
Proof.
  apply (X13_ListAll_after_Create Categoria 1 (body "Cardio") []
           (record 1 "Cardio") [record 1 "Cardio"]).
  reflexivity.
Defined.

(** X14. Deleting a record frees its name.  In a table whose names are all
    different, a Create with the name of a stored record is refused with
    Conflict (409); once that record is deleted the same Create succeeds. *)
Theorem X14_delete_frees_nome
    (e : entity) (uuid4 : uuid) (input : SchemaIn) (db : list row)
    (obj : nat) (r : row) :
  unique_nome db → db !! obj = Some r →
  r !! "nome" = Some (VStr (nome input)) →
  other_fields input !! "id" = None →
  let out : row := <["id" := VUUID uuid4]> (model_dump input) in
  request (Create e uuid4 input) db = (inl (HTTPException HTTP_409_CONFLICT), db) ∧
  request (DeleteByName e (nome input)) db = (inr tt, delete obj db) ∧
  request (Create e uuid4 input) (delete obj db) = (inr out, delete obj db ++ [out]).
Proof.
  intros Huniq Hobj Hn Hid out. to_categorias.
  rewrite !request_post, request_delete_by_nome.
  rewrite (find_unique_key "nome" db obj r) by done.
  split_and!; [done..|].
  rewrite (proj2 (find_none_iff _ _ _)
             (deleted_key_gone "nome" db obj r _ Huniq Hobj Hn)).
  by rewrite SchemaOut_no_id.
Qed.

Lemma X14_witness :
  request (Create Categoria 3 (body "Forca")) cardio_forca =
    (inl (HTTPException 409), cardio_forca) ∧
  request (DeleteByName Categoria (nome (body "Forca"))) cardio_forca =
    (inr tt, delete 1 cardio_forca) ∧
  request (Create Categoria 3 (body "Forca")) (delete 1 cardio_forca) =
    (inr (<["id" := VUUID 3]> (model_dump (body "Forca"))),
     delete 1 cardio_forca ++ [<["id" := VUUID 3]> (model_dump (body "Forca"))]).
Proof.
  apply (X14_delete_frees_nome Categoria 3 (body "Forca") cardio_forca 1
           (record 2 "Forca")).
  - apply (bool_decide_unpack _). by vm_compute.
  - reflexivity.
  - reflexivity.
  - reflexivity.
Defined.

(** ** Update, followed by another call *)

(** The record an update has written is still the one its key selects, when
    the patch does not carry the key's column. *)
Lemma find_after_update k v (db : list row) obj (r given : row) :
  list_find (has k v) db = Some (obj, r) → given !! k = None →
  list_find (has k v) (alter (λ r : row, given ∪ r) obj db) =
  Some (obj, given ∪ r).
Proof.
  intros (Hobj & Hr & Hleast)%list_find_Some Hk. apply list_find_Some.
  split_and!.
  - by rewrite list_lookup_alter_eq, Hobj.
  - simpl. by rewrite lookup_union_r.
  - intros j y Hj Hlt. rewrite list_lookup_alter_ne in Hj by lia.
    by apply (Hleast j).
Qed.

(** What an update that succeeded has done. *)
Lemma patch_success id patch (db : list row) (r' : row) (db' : list row) :
  request (categorias.patch id patch) db = (inr r', db') →
  ∃ obj (r : row),
    list_find (has "id" (VUUID id)) db = Some (obj, r) ∧
    ¬ sets_taken_nome db obj (model_dump_exclude_unset patch) ∧
    r' = model_dump_exclude_unset patch ∪ r ∧
    db' = alter (λ r : row, model_dump_exclude_unset patch ∪ r) obj db.
Proof.
  rewrite request_patch.
  destruct (list_find _ _) as [[obj r]|]; [|done]. simpl.
  case_decide; [done|]. intros [= <- <-]. by exists obj, r.
Qed.

Lemma sets_taken_nome_alter (db : list row) obj (f : row → row) (given : row) :
  sets_taken_nome (alter f obj db) obj given ↔ sets_taken_nome db obj given.
Proof.
  unfold sets_taken_nome, taken_by_other. by rewrite delete_alter.
Qed.

(** X15. After an UpdateById that succeeded (the patch having no [id]
    field), GetById with the same id returns the updated record, and the same
    UpdateById once more returns it again and leaves the table as it is: the
    update is idempotent. *)
Theorem X15_UpdateById_read_back_idempotent
    (e : entity) (id : uuid) (patch : SchemaIn) (db : list row)
    (r' : row) (db' : list row) :
  other_fields patch !! "id" = None →
  request (UpdateById e id patch) db = (inr r', db') →
  request (GetById e id) db' = (inr r', db') ∧
  request (UpdateById e id patch) db' = (inr r', db').
Proof.
  intros Hid%exclude_unset_no_id. to_categorias.
  intros (obj & r & Hfind & Hfree & -> & ->)%patch_success.
  rewrite request_patch, request_get.
  rewrite (find_after_update _ _ _ _ _ _ Hfind Hid). simpl.
  split; [done|].
  rewrite decide_False by by rewrite sets_taken_nome_alter.
  rewrite (assoc_L (∪)), (idemp_L (∪)). f_equal.
  rewrite list_alter_alter_eq. apply list_alter_ext; [|done].
  intros r0 _. simpl. by rewrite (assoc_L (∪)), (idemp_L (∪)).
Qed.

Lemma X15_witness :
  request (GetById Categoria 2) [record 1 "Cardio"; record 2 "Pilates"] =
    (inr (record 2 "Pilates"), [record 1 "Cardio"; record 2 "Pilates"]) ∧
  request (UpdateById Categoria 2 (body "Pilates"))
    [record 1 "Cardio"; record 2 "Pilates"] =
    (inr (record 2 "Pilates"), [record 1 "Cardio"; record 2 "Pilates"]).
Proof.
  apply (X15_UpdateById_read_back_idempotent Categoria 2 (body "Pilates")
           cardio_forca (record 2 "Pilates")
           [record 1 "Cardio"; record 2 "Pilates"]).
  - reflexivity.
  - by vm_compute.
Defined.

Lemma exclude_unset_empty patch :
  model_fields_set patch = ∅ → model_dump_exclude_unset patch = ∅.
Proof.
  intros Hset. apply map_empty. intros k. unfold model_dump_exclude_unset.
  apply map_lookup_filter_None. right. intros v _. simpl. rewrite Hset.
  apply not_elem_of_empty.
Qed.

Lemma sets_taken_nome_empty (db : list row) obj : ¬ sets_taken_nome db obj ∅.
Proof. unfold sets_taken_nome. rewrite lookup_empty. tauto. Qed.

(** X16. A patch whose body set no field changes nothing: the update returns
    the record as it is stored and the table is unchanged. *)
Theorem X16_empty_patch_changes_nothing
    (e : entity) (patch : SchemaIn) (db : list row) (obj : nat) (r : row) :
  model_fields_set patch = ∅ →
  (∀ id, list_find (has "id" (VUUID id)) db = Some (obj, r) →
     request (UpdateById e id patch) db = (inr r, db)) ∧
  (∀ n, list_find (has "nome" (VStr n)) db = Some (obj, r) →
     request (UpdateByName e n patch) db = (inr r, db)).
Proof.
  intros Hset%exclude_unset_empty. to_categorias.
  split; intros key Hfind;
    [rewrite request_patch|rewrite request_patch_by_nome];
    rewrite Hfind, Hset; simpl;
    (rewrite decide_False by apply sets_taken_nome_empty);
    rewrite (left_id_L ∅ (∪));
    (rewrite list_alter_id; [done|]); intros r0; apply (left_id_L ∅ (∪)).
Qed.

Lemma X16_witness :
  request
    (UpdateById Categoria 2
       {| nome := "ignored"; other_fields := ∅; model_fields_set := ∅ |})
    cardio_forca = (inr (record 2 "Forca"), cardio_forca) ∧
  request
    (UpdateByName Categoria "Forca"
       {| nome := "ignored"; other_fields := ∅; model_fields_set := ∅ |})
    cardio_forca = (inr (record 2 "Forca"), cardio_forca).
Proof.
  split.
  - apply (proj1 (X16_empty_patch_changes_nothing Categoria
                    {| nome := "ignored"; other_fields := ∅; model_fields_set := ∅ |}
                    cardio_forca 1 (record 2 "Forca") eq_refl) 2%N).
    reflexivity.
  - apply (proj2 (X16_empty_patch_changes_nothing Categoria
                    {| nome := "ignored"; other_fields := ∅; model_fields_set := ∅ |}
                    cardio_forca 1 (record 2 "Forca") eq_refl) "Forca").
    reflexivity.
Defined.

(** ** Renaming *)

(** X17. An update that sets [nome], on a table whose names are all
    different, is taken exactly when no other stored record has the new name;
    the record updated may have it already.  The endpoints make no such check
    themselves: it is the table that refuses.  Taken or not, the update
    leaves the names different. *)
Theorem X17_update_taken_iff_nome_free
    (e : entity) (patch : SchemaIn) (db : list row) (obj : nat) (r : row) :
  unique_nome db → "nome" ∈ model_fields_set patch →
  (∀ id, list_find (has "id" (VUUID id)) db = Some (obj, r) →
     ((∃ (r' : row) (db' : list row),
         request (UpdateById e id patch) db = (inr r', db')) ↔
      ∀ j (r2 : row), db !! j = Some r2 → j ≠ obj →
                      r2 !! "nome" ≠ Some (VStr (nome patch))) ∧
     unique_nome (request (UpdateById e id patch) db).2) ∧
  (∀ n, list_find (has "nome" (VStr n)) db = Some (obj, r) →
     ((∃ (r' : row) (db' : list row),
         request (UpdateByName e n patch) db = (inr r', db')) ↔
      ∀ j (r2 : row), db !! j = Some r2 → j ≠ obj →
                      r2 !! "nome" ≠ Some (VStr (nome patch))) ∧
     unique_nome (request (UpdateByName e n patch) db).2).
Proof.
  intros Huniq Hset. to_categorias.
  assert (sets_taken_nome db obj (model_dump_exclude_unset patch) ↔
          ¬ ∀ j (r2 : row), db !! j = Some r2 → j ≠ obj →
                            r2 !! "nome" ≠ Some (VStr (nome patch))) as Htaken.
  { rewrite sets_taken_nome_patch, taken_by_other_iff. split.
    - intros (_ & j & r2 & ? & ? & ?) Hfree. by apply (Hfree j r2).
    - intros Hnot. split; [done|].
      destruct (decide (taken_by_other db obj (VStr (nome patch)))) as [Ht|Ht];
        [by apply taken_by_other_iff|].
      destruct Hnot. intros j r2 ? ? ?. apply Ht, taken_by_other_iff.
      by exists j, r2. }
  split; intros key Hfind;
    [rewrite request_patch|rewrite request_patch_by_nome];
    rewrite Hfind; simpl;
    apply find_some_member in Hfind as (Hobj & _ & _);
    (case_decide as Hdec; simpl; split;
      [| done | | by eapply NoDup_nomes_update]).
  all: split;
    [ first [ by intros (? & ? & ?) | intros _ j r2 Hj Hne Hr2; apply Hdec;
              apply sets_taken_nome_patch; split; [done|];
              apply taken_by_other_iff; by exists j, r2 ]
    | first [ intros Hfree; by apply Htaken in Hdec | intros _; by eexists _, _ ] ].
Qed.

Lemma X17_witness :
  (((∃ (r' : row) (db' : list row),
       request (UpdateById Categoria 2 (body "Pilates")) cardio_forca = (inr r', db')) ↔
    ∀ j (r2 : row), cardio_forca !! j = Some r2 → j ≠ 1 →
                    r2 !! "nome" ≠ Some (VStr (nome (body "Pilates")))) ∧
   unique_nome (request (UpdateById Categoria 2 (body "Pilates")) cardio_forca).2) ∧
  (((∃ (r' : row) (db' : list row),
       request (UpdateByName Categoria "Forca" (body "Cardio")) cardio_forca =
         (inr r', db')) ↔
    ∀ j (r2 : row), cardio_forca !! j = Some r2 → j ≠ 1 →
                    r2 !! "nome" ≠ Some (VStr (nome (body "Cardio")))) ∧
   unique_nome
     (request (UpdateByName Categoria "Forca" (body "Cardio")) cardio_forca).2).
Proof.
  assert (unique_nome cardio_forca) as Huniq
    by (apply (bool_decide_unpack _); by vm_compute).
  split.
  - apply (proj1 (X17_update_taken_iff_nome_free Categoria (body "Pilates")
                    cardio_forca 1 (record 2 "Forca") Huniq
                    ltac:(by vm_compute)) 2%N).
    reflexivity.
  - apply (proj2 (X17_update_taken_iff_nome_free Categoria (body "Cardio")
                    cardio_forca 1 (record 2 "Forca") Huniq
                    ltac:(by vm_compute)) "Forca").
    reflexivity.
Defined.

(** X18. Renaming by name.  In a table whose names are all different, after
    UpdateByName has given a record a name that no stored record had,
    GetByName with the old name fails with NotFound (404) and GetByName with
    the new name returns the updated record. *)
Theorem X18_rename_by_name
    (e : entity) (n : string) (patch : SchemaIn) (db : list row)
    (obj : nat) (r : row) :
  unique_nome db →
  list_find (has "nome" (VStr n)) db = Some (obj, r) →
  "nome" ∈ model_fields_set patch → nome patch ≠ n →
  no_match "nome" (VStr (nome patch)) db →
  ∃ (r' : row) (db' : list row),
    request (UpdateByName e n patch) db = (inr r', db') ∧
    request (GetByName e n) db' = (inl (HTTPException HTTP_404_NOT_FOUND), db') ∧
    request (GetByName e (nome patch)) db' = (inr r', db').
Proof.
  intros Huniq Hfind Hset Hne Hfree. to_categorias.
  set (given := model_dump_exclude_unset patch).
  exists (given ∪ r), (alter (λ r : row, given ∪ r) obj db).
  assert (given !! "nome" = Some (VStr (nome patch))) as Hnome
    by by apply exclude_unset_nome.
  pose proof (find_some_member _ _ _ _ _ Hfind) as (Hobj & _ & Hr).
  rewrite request_patch_by_nome, !request_get_by_nome, Hfind. fold given. simpl.
  rewrite decide_False.
  2:{ intros [_ (j & r2 & Hj & _ & Hr2)%taken_by_other_iff]%sets_taken_nome_patch.
      apply (Hfree r2); [by eapply list_elem_of_lookup_2|done]. }
  split_and!; [done| |].
  - rewrite (proj2 (find_none_iff _ _ _)); [done|].
    intros r2 [j Hj]%list_elem_of_lookup_1 Hr2.
    destruct (decide (j = obj)) as [->|Hj'].
    + rewrite list_lookup_alter_eq, Hobj in Hj. injection Hj as <-.
      rewrite (lookup_union_Some_l _ _ _ _ Hnome) in Hr2. congruence.
    + rewrite list_lookup_alter_ne in Hj by done. apply Hj'.
      apply (NoDup_lookup _ j obj (Some (VStr n)) Huniq);
        unfold nomes, column; rewrite list_lookup_fmap.
      * by rewrite Hj; simpl; rewrite Hr2.
      * by rewrite Hobj; simpl; rewrite Hr.
  - rewrite (proj2 (list_find_Some _ _ obj (given ∪ r))); [done|].
    split_and!.
    + by rewrite list_lookup_alter_eq, Hobj.
    + simpl. by apply lookup_union_Some_l.
    + intros j y Hj Hlt. rewrite list_lookup_alter_ne in Hj by lia.
      apply Hfree. by eapply list_elem_of_lookup_2.
Qed.

Lemma X18_witness :
  ∃ (r' : row) (db' : list row),
    request (UpdateByName Categoria "Forca" (body "Pilates")) cardio_forca =
      (inr r', db') ∧
    request (GetByName Categoria "Forca") db' = (inl (HTTPException 404), db') ∧
    request (GetByName Categoria (nome (body "Pilates"))) db' = (inr r', db').
Proof.
  apply (X18_rename_by_name Categoria "Forca" (body "Pilates") cardio_forca 1
           (record 2 "Forca")).
  - apply (bool_decide_unpack _). by vm_compute.
  - reflexivity.
  - by vm_compute.
  - by vm_compute.
  - each_row.
Defined.

(** ** Exceptions and commits *)

(** X19. What an endpoint lets out, called on a fresh session.  Create
    answers Conflict (409) or InternalError (500) and nothing else: whatever
    its write raises is caught.  The reads and the deletions answer NotFound
    (404) and nothing else.  The updates answer NotFound, or let through the
    [IntegrityError] of a refused commit, which they do not handle.  The
    paginated query raises nothing of its own and lets through what
    [paginate] raises on the result it is handed.  An exception leaves the
    table as it was. *)
Theorem X19_exceptions_raised
    (paginate : fastapi_pagination.paginator) (e : entity) (op : operation)
    (db db' : list row) (exn : exception) :
  request (perform paginate e op) db = (inl exn, db') →
  db' = db ∧
  (exn ∈ raised_by op ∨
   ∃ limit offset,
     op = OpListPage limit offset ∧
     paginate (fastapi_pagination.Cursor (ResultOf db)) = inl exn).
Proof.
  destruct op; simpl; intros Hop%request_fmap_failure; revert Hop; to_categorias.
  - rewrite request_post. destruct (list_find _ _).
    + intros [= <- <-]. split; [done|]. left. apply elem_of_cons. by left.
    + destruct (SchemaOut _ _); [|done].
      intros [= <- <-]. split; [done|]. left.
      apply elem_of_cons. right. apply elem_of_cons. by left.
  - rewrite request_query. destruct db; [|done].
    intros [= <- <-]. split; [done|]. left. apply elem_of_cons. by left.
  - rewrite request_query_page. intros [= Hpage <-]. split; [done|].
    right. by exists limit, offset.
  - rewrite request_get. destruct (list_find _ _) as [[]|]; [done|].
    intros [= <- <-]. split; [done|]. left. apply elem_of_cons. by left.
  - rewrite request_get_by_nome. destruct (list_find _ _) as [[]|]; [done|].
    intros [= <- <-]. split; [done|]. left. apply elem_of_cons. by left.
  - rewrite request_patch. destruct (list_find _ _) as [[]|]; simpl.
    + case_decide; [|done]. intros [= <- <-]. split; [done|]. left.
      apply elem_of_cons. right. apply elem_of_cons. by left.
    + intros [= <- <-]. split; [done|]. left. apply elem_of_cons. by left.
  - rewrite request_patch_by_nome. destruct (list_find _ _) as [[]|]; simpl.
    + case_decide; [|done]. intros [= <- <-]. split; [done|]. left.
      apply elem_of_cons. right. apply elem_of_cons. by left.
    + intros [= <- <-]. split; [done|]. left. apply elem_of_cons. by left.
  - rewrite request_delete. destruct (list_find _ _) as [[]|]; [done|].
    intros [= <- <-]. split; [done|]. left. apply elem_of_cons. by left.
  - rewrite request_delete_by_nome. destruct (list_find _ _) as [[]|]; [done|].
    intros [= <- <-]. split; [done|]. left. apply elem_of_cons. by left.
Qed.

Lemma X19_witness :
  cardio_forca = cardio_forca ∧
  (IntegrityError ∈ raised_by (OpUpdateByName "Forca" (body "Cardio")) ∨
   ∃ limit offset,
     OpUpdateByName "Forca" (body "Cardio") = OpListPage limit offset ∧
     fastapi_pagination.paginate 1 50
       (fastapi_pagination.Cursor (ResultOf cardio_forca)) = inl IntegrityError).
Proof.
  apply (X19_exceptions_raised (fastapi_pagination.paginate 1 50) Categoria
           (OpUpdateByName "Forca" (body "Cardio")) cardio_forca cardio_forca
           IntegrityError).
  by vm_compute.
Defined.

(** X20. No endpoint leaves a write pending.  Called on a session with
    nothing pending, every endpoint returns a session with nothing pending:
    what Create, the updates and the deletions change is committed before
    they return, and a call that fails has changed nothing. *)
Theorem X20_nothing_left_pending
    (paginate : fastapi_pagination.paginator) (e : entity) (op : operation)
    (s : Session) :
  committed s = working s →
  committed (perform paginate e op s).2 = working (perform paginate e op s).2.
Proof.
  intros Hclean. destruct op; simpl; to_categorias; unfold fmap, M_fmap.
  - rewrite post_eq. destruct (list_find _ _); [done|].
    destruct (SchemaOut _ _); [done|]. by case_decide.
  - rewrite query_eq. destruct (working s) eqn:Hw; simpl; congruence.
  - rewrite query_page_eq. by destruct (paginate _).
  - rewrite get_eq. by destruct (list_find _ _) as [[]|].
  - rewrite get_by_nome_eq. by destruct (list_find _ _) as [[]|].
  - rewrite patch_eq. destruct (list_find _ _) as [[]|]; [|done].
    simpl. by case_decide.
  - rewrite patch_by_nome_eq. destruct (list_find _ _) as [[]|]; [|done].
    simpl. by case_decide.
  - rewrite delete_eq. destruct (list_find _ _) as [[]|]; [|done].
    by case_decide.
  - rewrite delete_by_nome_eq. destruct (list_find _ _) as [[]|]; [|done].
    by case_decide.
Qed.

Lemma X20_witness :
  committed
    (perform (fastapi_pagination.paginate 1 50) Categoria
       (OpUpdateById 2 (body "Pilates")) (begin cardio_forca)).2 =
  working
    (perform (fastapi_pagination.paginate 1 50) Categoria
       (OpUpdateById 2 (body "Pilates")) (begin cardio_forca)).2.
Proof.
  apply (X20_nothing_left_pending (fastapi_pagination.paginate 1 50) Categoria
           (OpUpdateById 2 (body "Pilates")) (begin cardio_forca)).
  reflexivity.
Defined.

(** ** The [setattr] loop of the updates *)

(** X21. The loop [for key, value in update.items(): setattr(obj, key, value)]
    gives the same session in whatever order the dictionary yields its items:
    the row of [obj] overwritten with the dictionary, every other row and the
    committed table untouched, and one write pending for each of the
    dictionary's keys. *)
Theorem X21_setattr_loop_any_order
    (obj : nat) (update : row) (items : list (string * value)) (s : Session) :
  items ≡ₚ map_to_list update →
  for_in items (λ '(key, value), setattr obj key value) s =
  (inr tt, {| committed := committed s;
              working := alter (λ r : row, update ∪ r) obj (working s);
              written := set_map (pair obj) (dom update) ∪ written s |}).
Proof.
  intros Hperm. rewrite for_in_setattr. do 2 f_equal.
  - apply list_alter_ext; [|done]. intros r _.
    assert (NoDup items.*1) as Hnd.
    { rewrite Hperm. apply NoDup_fst_map_to_list. }
    rewrite assign_all_union by done. f_equal.
    rewrite (list_to_map_proper items (map_to_list update)) by done.
    apply list_to_map_to_list.
  - f_equal. apply set_eq. intros [obj' c].
    rewrite elem_of_list_to_set, elem_of_map, list_elem_of_fmap. split.
    + intros ([k v] & [= -> ->] & Hkv). exists k. split; [done|].
      rewrite Hperm in Hkv. apply elem_of_map_to_list in Hkv.
      apply elem_of_dom. by eexists.
    + intros (k & [= -> ->] & [v Hv]%elem_of_dom). exists (k, v). split; [done|].
      rewrite Hperm. by apply elem_of_map_to_list.
Qed.

Lemma X21_witness :
  for_in [("nome", VStr "Pilates"); ("id", VUUID 9)]
    (λ '(key, value), setattr 1 key value) (begin cardio_forca) =
  (inr tt, {| committed := committed (begin cardio_forca);
              working := alter (λ r : row, record 9 "Pilates" ∪ r) 1
                           (working (begin cardio_forca));
              written := set_map (pair 1) (dom (record 9 "Pilates")) ∪
                           written (begin cardio_forca) |}).
Proof.
  apply (X21_setattr_loop_any_order 1 (record 9 "Pilates")
           [("nome", VStr "Pilates"); ("id", VUUID 9)] (begin cardio_forca)).
  apply (bool_decide_unpack _). by vm_compute.
Defined.
